(** * medicure_report_summary: the upload endpoint of [app.py]

    A shallow embedding of [app.py]: the two helpers [ocr_with_ocrspace] and
    [summarize_with_ai], and the Flask handler [upload_file].

    Python strings are lists of Unicode code points.  Everything outside the
    file (the environment variables, werkzeug's [FileStorage.save], PyMuPDF,
    the [requests] library, the Gemini client) is a field of the record
    [World].  The disk has regular files, directories and symbolic links
    under the entries its paths name; which entry a path names (the
    resolution of [.], [..], repeated slashes and links on the way) and
    which removals the operating system refuses belong to the disk.  Paths
    are joined as on POSIX.  Python exceptions are values of an error monad;
    only subclasses of [Exception] are modelled ([KeyboardInterrupt] and
    [SystemExit] are not). *)

From Stdlib Require Import String Ascii NArith ZArith PrimFloat Lia Bool DecimalString.
From Stdlib.Strings Require Import Byte.
From stdpp Require Import base option list gmap.

Local Open Scope N_scope.
Local Open Scope list_scope.

(** ** Python strings *)

Module PyStr.

(** A [str] is a sequence of code points. *)
Abbreviation pystr := (list N).

(** The string literals of the source are ASCII. *)
Definition lit (s : string) : pystr :=
  N_of_ascii <$> list_ascii_of_string s.

(** The escape [\n] of a Python literal. *)
Definition LF : pystr := [10].

(** [str.isspace] on one code point: the characters [str.strip] removes. *)
Definition isspace (c : N) : bool :=
  ((9 <=? c) && (c <=? 13))
  || ((28 <=? c) && (c <=? 32))
  || (c =? 133) || (c =? 160) || (c =? 5760)
  || ((8192 <=? c) && (c <=? 8202))
  || (c =? 8232) || (c =? 8233) || (c =? 8239) || (c =? 8287)
  || (c =? 12288).

Fixpoint lstrip (s : pystr) : pystr :=
  match s with
  | c :: s' => if isspace c then lstrip s' else s
  | [] => []
  end.

Definition rstrip (s : pystr) : pystr := rev (lstrip (rev s)).

(** [s.strip()] *)
Definition strip (s : pystr) : pystr := rstrip (lstrip s).

Definition eqb (a b : pystr) : bool := bool_decide (a = b).

(** [s.startswith(p)] *)
Fixpoint startswith (s p : pystr) {struct p} : bool :=
  match p, s with
  | [], _ => true
  | c :: p', d :: s' => (c =? d) && startswith s' p'
  | _ :: _, [] => false
  end.

(** [s.endswith(p)] *)
Definition endswith (s p : pystr) : bool := startswith (rev s) (rev p).

(** [needle in hay] *)
Fixpoint contains (needle hay : pystr) : bool :=
  startswith hay needle
  || match hay with
     | [] => false
     | _ :: hay' => contains needle hay'
     end.

(** [sep.join(parts)] with the empty separator. *)
Definition join (parts : list pystr) : pystr := concat parts.

(** A natural number in decimal, as [str(n)] prints it. *)
Definition of_nat (n : nat) : pystr :=
  lit (NilZero.string_of_uint (Nat.to_uint n)).

(** [posixpath.join(a, b)] *)
Definition path_join (a b : pystr) : pystr :=
  if startswith b (lit "/") then b
  else if eqb a [] || endswith a (lit "/") then a ++ b
  else a ++ lit "/" ++ b.

(** [s.split('/')] *)
Fixpoint components (s : pystr) : list pystr :=
  match s with
  | [] => [[]]
  | c :: s' =>
      if c =? 47 then [] :: components s'
      else match components s' with
           | p :: ps => (c :: p) :: ps
           | [] => [[c]]
           end
  end.

(** ['/'.join(parts)] *)
Fixpoint join_slash (parts : list pystr) : pystr :=
  match parts with
  | [] => []
  | [p] => p
  | p :: ps => p ++ 47 :: join_slash ps
  end.

(** One component more for [normpath]; [kept] has the components kept so
    far, the last one first. *)
Definition normpath_step (absolute : bool) (kept : list pystr) (comp : pystr) : list pystr :=
  if eqb comp [] || eqb comp (lit ".") then kept
  else if eqb comp (lit "..") then
    match kept with
    | top :: rest => if eqb top (lit "..") then comp :: kept else rest
    | [] => if absolute then [] else [comp]
    end
  else comp :: kept.

(** [posixpath.normpath(p)], with two leading slashes taken as one: the
    name a path has once [.], [..] and repeated slashes are resolved in a
    tree without links. *)
Definition normpath (p : pystr) : pystr :=
  let absolute := startswith p (lit "/") in
  let body := join_slash (rev (fold_left (normpath_step absolute) (components p) [])) in
  if absolute then 47 :: body
  else if eqb body [] then lit "." else body.

End PyStr.
Export PyStr.

(** ** Python values and exceptions *)

(** What [json.loads] can produce.  The keys of a dict are distinct; looking
    a key up takes its entry. *)
#[warnings="-register-all"]
Inductive pyval : Type :=
| PNone
| PBool (b : bool)
| PInt (z : Z)
| PFloat (f : float)
| PStr (s : pystr)
| PList (l : list pyval)
| PDict (d : list (pystr * pyval)).

Inductive exn_class : Type :=
| RequestException   (* requests.exceptions.RequestException and its subclasses *)
| AttributeError
| TypeError
| IndexError
| KeyError
| OSError
| OtherException.    (* any other subclass of Exception *)

(** An exception: its class and the text [str(e)]. *)
Inductive exn : Type := Exn (cls : exn_class) (msg : pystr).

Definition exn_cls (e : exn) : exn_class := let 'Exn c _ := e in c.
Definition exn_str (e : exn) : pystr := let 'Exn _ m := e in m.

Definition is_RequestException (e : exn) : bool :=
  match exn_cls e with RequestException => true | _ => false end.

(** The outcome of evaluating an expression: a value, or a raised exception. *)
Inductive pyres (A : Type) : Type :=
| Ret (a : A)
| Raise (e : exn).
Arguments Ret {A} a.
Arguments Raise {A} e.

Module Py.

Definition bind {A B} (m : pyres A) (k : A -> pyres B) : pyres B :=
  match m with
  | Ret a => k a
  | Raise e => Raise e
  end.

(** The list comprehension [[f(x) for x in l]]: the first exception ends it. *)
Fixpoint comprehension {A B} (f : A -> pyres B) (l : list A) : pyres (list B) :=
  match l with
  | [] => Ret []
  | x :: l' =>
      bind (f x) (fun y => bind (comprehension f l') (fun ys => Ret (y :: ys)))
  end.

Definition type_name (v : pyval) : pystr :=
  match v with
  | PNone => lit "NoneType"
  | PBool _ => lit "bool"
  | PInt _ => lit "int"
  | PFloat _ => lit "float"
  | PStr _ => lit "str"
  | PList _ => lit "list"
  | PDict _ => lit "dict"
  end.

(** [bool(v)] *)
Definition truthy (v : pyval) : bool :=
  match v with
  | PNone => false
  | PBool b => b
  | PInt z => negb (z =? 0)%Z
  | PFloat f => negb (PrimFloat.eqb f PrimFloat.zero)
  | PStr s => negb (PyStr.eqb s [])
  | PList l => match l with [] => false | _ => true end
  | PDict d => match d with [] => false | _ => true end
  end.

Fixpoint dict_lookup (k : pystr) (d : list (pystr * pyval)) : option pyval :=
  match d with
  | [] => None
  | (k', v) :: d' => if PyStr.eqb k k' then Some v else dict_lookup k d'
  end.

(** [v.get(k, default)]: only a dict has the method. *)
Definition get (v : pyval) (k : pystr) (dflt : pyval) : pyres pyval :=
  match v with
  | PDict d => Ret (default dflt (dict_lookup k d))
  | _ => Raise (Exn AttributeError
                  (lit "'" ++ type_name v ++ lit "' object has no attribute 'get'"))
  end.

(** [v[0]] *)
Definition item0 (v : pyval) : pyres pyval :=
  match v with
  | PList (x :: _) => Ret x
  | PList [] => Raise (Exn IndexError (lit "list index out of range"))
  | PStr (c :: _) => Ret (PStr [c])
  | PStr [] => Raise (Exn IndexError (lit "string index out of range"))
  | PDict _ => Raise (Exn KeyError (lit "0"))   (* the keys of a JSON object are strings *)
  | _ => Raise (Exn TypeError
                  (lit "'" ++ type_name v ++ lit "' object is not subscriptable"))
  end.

(** [v[k]] for a string key [k] *)
Definition getitem (v : pyval) (k : pystr) : pyres pyval :=
  match v with
  | PDict d =>
      match dict_lookup k d with
      | Some x => Ret x
      | None => Raise (Exn KeyError (lit "'" ++ k ++ lit "'"))
      end
  | PList _ =>
      Raise (Exn TypeError (lit "list indices must be integers or slices, not str"))
  | PStr _ =>
      Raise (Exn TypeError (lit "string indices must be integers, not 'str'"))
  | _ => Raise (Exn TypeError
                  (lit "'" ++ type_name v ++ lit "' object is not subscriptable"))
  end.

(** The items [for x in v] walks through. *)
Definition iter (v : pyval) : pyres (list pyval) :=
  match v with
  | PList l => Ret l
  | PStr s => Ret ((fun c => PStr [c]) <$> s)
  | PDict d => Ret ((fun kv => PStr kv.1) <$> d)
  | _ => Raise (Exn TypeError
                  (lit "'" ++ type_name v ++ lit "' object is not iterable"))
  end.

(** ["".join(l)]: every item has to be a [str]; [i] counts the items seen. *)
Fixpoint join_from (i : nat) (l : list pyval) : pyres pystr :=
  match l with
  | [] => Ret []
  | PStr s :: l' => bind (join_from (S i) l') (fun r => Ret (s ++ r))
  | v :: _ =>
      Raise (Exn TypeError
               (lit "sequence item " ++ of_nat i
                ++ lit ": expected str instance, " ++ type_name v ++ lit " found"))
  end.

Definition join (l : list pyval) : pyres pystr := join_from 0 l.

(** [try: body except Exception as e: handler(e)] *)
Definition try_except {A} (body : pyres A) (handler : exn -> pyres A) : pyres A :=
  match body with
  | Ret a => Ret a
  | Raise e => handler e
  end.

End Py.

Declare Scope py_scope.
Delimit Scope py_scope with py.
Notation "'do' x <- m ; k" := (Py.bind m (fun x => k))
  (at level 10, x name, m at level 100, k at level 200) : py_scope.
Notation "'do' '_' <- m ; k" := (Py.bind m (fun _ => k))
  (at level 10, m at level 100, k at level 200) : py_scope.

(** ** The world outside [app.py] *)

(** The object [requests.post] returns, as far as the code uses it. *)
Record Response : Type := {
  raise_for_status : pyres unit;
  json : pyres pyval;
}.

(** A page of a PyMuPDF document. *)
Record Page : Type := { get_text : pyres pystr }.

(** What [file.save(path)] does: it writes the file, or it raises, leaving
    on disk what it had written so far, if anything.  Which of the two
    depends on the disk as well (a directory under the name, permissions,
    the space left): a world has the outcome on the disk of the request. *)
Inductive save_outcome : Type :=
| Saved
| SaveFailed (e : exn) (left_on_disk : option (list byte)).

Record World : Type := {
  (** [os.getenv] at start-up *)
  OCR_SPACE_API_KEY : option pystr;
  GEMINI_API_KEY : option pystr;
  (** [repr(v)], which is also [str(v)] when [v] is not a [str] *)
  py_repr : pyval -> pystr;
  (** werkzeug's [FileStorage.save] to a path *)
  save_result : pystr -> list byte -> save_outcome;
  (** [fitz.open] on the contents of a file *)
  fitz_document : list byte -> pyres (list Page);
  (** [requests.post(url, files={'filename': f}, data=payload)] *)
  requests_post : pystr -> list byte -> list (pystr * pyval) -> pyres Response;
  (** [genai.GenerativeModel(name).generate_content(prompt).text] *)
  generate_content_text : pystr -> pystr -> pyres pystr;
}.

(** [not KEY] for a value of [os.getenv]: unset, or set to the empty string. *)
Definition key_missing (k : option pystr) : bool :=
  match k with
  | None => true
  | Some s => PyStr.eqb s []
  end.

(** ** The disk *)

(** What a directory entry holds. *)
Inductive node : Type :=
| File (content : list byte)
| Directory
| Link (target : pystr).   (* a symbolic link, and the entry it leads to in the end *)

(** The disk, the upload folder with the rest.  [entry] gives the directory
    entry a path names, once the operating system has resolved [.], [..],
    repeated slashes and the links in the directories on the way: two paths
    with one entry are two names of one thing.  [nodes] has what is under
    each entry.  [refusal] has, for the entries the process may not remove
    (permissions, a read-only file system), the exception [os.remove]
    raises. *)
Record filesystem : Type := {
  entry : pystr -> pystr;
  nodes : gmap pystr node;
  refusal : pystr -> option exn;
}.

(** The entry that opening a path reaches: a link is followed. *)
Definition reached (d : filesystem) (path : pystr) : pystr :=
  match nodes d !! entry d path with
  | Some (Link target) => target
  | _ => entry d path
  end.

(** [d !! path]: the contents of the regular file that opening [path]
    reaches, if there is one. *)
#[global] Instance filesystem_lookup : Lookup pystr (list byte) filesystem :=
  fun path d =>
    match nodes d !! reached d path with
    | Some (File b) => Some b
    | _ => None
    end.

(** [<[path := b]> d]: the disk once [b] has been written to [path]
    ([open(path, 'wb')], which follows a link, then [write]). *)
#[global] Instance filesystem_insert : Insert pystr (list byte) filesystem :=
  fun path b d =>
    {| entry := entry d;
       nodes := <[reached d path := File b]> (nodes d);
       refusal := refusal d |}.

(** [delete path d]: the disk once the entry of [path] has been removed;
    what a link led to stays. *)
#[global] Instance filesystem_delete : Delete pystr filesystem :=
  fun path d =>
    {| entry := entry d;
       nodes := delete (entry d path) (nodes d);
       refusal := refusal d |}.

(** An empty tree without links, in which nothing is refused. *)
#[global] Instance filesystem_empty : Empty filesystem :=
  {| entry := normpath; nodes := ∅; refusal := fun _ => None |}.

#[global] Instance filesystem_singleton : SingletonM pystr (list byte) filesystem :=
  fun path b => <[path := b]> ∅.

Arguments filesystem_lookup : simpl never.
Arguments filesystem_insert : simpl never.
Arguments filesystem_delete : simpl never.
Arguments filesystem_singleton : simpl never.

(** [os.path.exists(path)]: links are followed, and a directory counts. *)
Definition path_exists (d : filesystem) (path : pystr) : bool :=
  match nodes d !! reached d path with
  | Some (File _) | Some Directory => true
  | _ => false
  end.

(** [open(path, 'rb')] followed by reading the file *)
Definition open_rb (w : World) (disk : filesystem) (path : pystr) : pyres (list byte) :=
  match disk !! path with
  | Some b => Ret b
  | None =>
      Raise (Exn OSError
               ((if path_exists disk path then lit "[Errno 21] Is a directory: "
                 else lit "[Errno 2] No such file or directory: ")
                ++ py_repr w (PStr path)))
  end.

(** [os.remove(path)]: the disk afterwards, or the exception.  A directory is
    not removed (Linux raises the [IsADirectoryError] below, and [refusal]
    has what another system raises), and the operating system may refuse to
    remove a file or a link. *)
Definition remove_result (w : World) (d : filesystem) (path : pystr) : pyres filesystem :=
  match nodes d !! entry d path with
  | None =>
      Raise (Exn OSError
               (lit "[Errno 2] No such file or directory: " ++ py_repr w (PStr path)))
  | Some Directory =>
      Raise (default
               (Exn OSError (lit "[Errno 21] Is a directory: " ++ py_repr w (PStr path)))
               (refusal d (entry d path)))
  | Some _ =>
      match refusal d (entry d path) with
      | Some e => Raise e
      | None => Ret (delete path d)
      end
  end.

(** The value a replacement field [{v}] of an f-string prints. *)
Definition format_value (w : World) (v : pyval) : pystr :=
  match v with
  | PStr s => s
  | _ => py_repr w v
  end.

(** ** [ocr_with_ocrspace] *)

Definition OCR_MARKER : pystr := lit "OCR.space Error:".
Definition GEMINI_MARKER : pystr := lit "Gemini Error:".

Section Helpers.
Context (w : World).
Local Open Scope py_scope.

Definition ocr_payload (key : pystr) : list (pystr * pyval) :=
  [ (lit "isOverlayRequired", PBool false);
    (lit "apikey", PStr key);
    (lit "language", PStr (lit "eng")) ].

(** The body of the [try] of [ocr_with_ocrspace]. *)
Definition ocr_request (disk : filesystem) (file_path : pystr) : pyres pystr :=
  do f <- open_rb w disk file_path ;
  do r <- requests_post w (lit "https://api.ocr.space/parse/image") f
         (ocr_payload (default [] (OCR_SPACE_API_KEY w))) ;
  do _ <- raise_for_status r ;
  do result <- json r ;
  do errored <- Py.get result (lit "IsErroredOnProcessing") PNone ;
  if Py.truthy errored then
    do messages <- Py.get result (lit "ErrorMessage") (PList [PStr (lit "Unknown error")]) ;
    do first <- Py.item0 messages ;
    Ret (lit "OCR.space Error: " ++ format_value w first)
  else
    do parsed <- Py.get result (lit "ParsedResults") PNone ;
    if Py.truthy parsed then
      do results <- Py.getitem result (lit "ParsedResults") ;
      do items <- Py.iter results ;
      do texts <- Py.comprehension
                 (fun res => Py.get res (lit "ParsedText") (PStr [])) items ;
      Py.join texts
    else
      Ret (lit "OCR.space Error: No text could be parsed.").

Definition ocr_with_ocrspace (disk : filesystem) (file_path : pystr) : pyres pystr :=
  if key_missing (OCR_SPACE_API_KEY w) then
    Ret (lit "OCR.space Error: API key not found. Please create a .env file and add your OCR_SPACE_API_KEY.")
  else
    Py.try_except (ocr_request disk file_path)
      (fun e =>
         if is_RequestException e then
           Ret (lit "OCR.space Error: Network request failed. Details: " ++ exn_str e)
         else
           Ret (lit "OCR.space Error: An unexpected error occurred. Details: " ++ exn_str e)).

(** ** [summarize_with_ai] *)

Definition prompt (text : pystr) : pystr :=
  lit "You are a specialized medical report analyst. From the provided medical report text, "
  ++ lit "extract ONLY the following information and present it in a clear, structured format. "
  ++ lit "you have to tell the patient like a human what the report is about (summary of the report it should be little precise.)." ++ LF ++ LF
  ++ lit "1. **Patient Details:** (List Name, Age, Gender, etc., if available)." ++ LF
  ++ lit "2. **Consultation Recommended:** (Based on the abnormal findings, suggest the type of specialist to consult, e.g., 'Cardiologist', 'Endocrinologist')." ++ LF
  ++ lit "3. **Abnormal Values:** (List any values that are outside the normal range. Clearly show the test name, the result, and the normal range,  with the values mention their general language names and what is the probem related to them)." ++ LF
  ++ lit "4. **Normal Values:** (After listing abnormal values, simply state: 'All other tested values are within the normal range.')." ++ LF ++ LF
  ++ lit "--- MEDICAL REPORT TEXT ---" ++ LF
  ++ text.

Definition summarize_with_ai (text : pystr) : pyres pystr :=
  if key_missing (GEMINI_API_KEY w) then
    Ret (lit "Gemini Error: API key not found. Please add GEMINI_API_KEY to your .env file.")
  else
    Py.try_except
      (generate_content_text w (lit "gemini-2.5-flash") (prompt text))
      (fun e =>
         Ret (lit "Gemini Error: An error occurred while generating the summary. Details: "
              ++ exn_str e)).

End Helpers.

(** ** The request handler *)

(** werkzeug's [FileStorage]: an uploaded file. *)
Record FileStorage : Type := {
  filename : pystr;
  stream : list byte;
}.

(** [request.files], a multi-dict: a key may occur more than once, and
    indexing takes its first value. *)
Record Request : Type := { files : list (pystr * FileStorage) }.

Fixpoint files_get (k : pystr) (l : list (pystr * FileStorage)) : option FileStorage :=
  match l with
  | [] => None
  | (k', f) :: l' => if PyStr.eqb k k' then Some f else files_get k l'
  end.

(** [bool(file)] is [bool(file.filename)]. *)
Definition FileStorage_bool (f : FileStorage) : bool := negb (PyStr.eqb (filename f) []).

(** The calls the handler makes, in order; a call of one of the two helpers
    is recorded with what it gave back. *)
Inductive call : Type :=
| FileSave (path : pystr)
| FitzOpen (path : pystr)
| Print (line : pystr)
| OcrWithOcrspace (file_path : pystr) (returned : pyres pystr)
| SummarizeWithAi (text : pystr) (returned : pyres pystr)
| OsRemove (path : pystr).

Record State : Type := {
  disk : filesystem;
  calls : list call;
}.

(** A computation that reads and writes the disk, records its calls and
    may raise. *)
Definition M (A : Type) : Type := State -> pyres A * State.

Module Handler.

Definition ret {A} (a : A) : M A := fun st => (Ret a, st).

Definition bind {A B} (m : M A) (k : A -> M B) : M B :=
  fun st =>
    match m st with
    | (Ret a, st') => k a st'
    | (Raise e, st') => (Raise e, st')
    end.

Definition lift {A} (r : pyres A) : M A := fun st => (r, st).

Definition record (c : call) : M unit :=
  fun st => (Ret tt, {| disk := disk st; calls := calls st ++ [c] |}).

Definition read_disk : M filesystem := fun st => (Ret (disk st), st).

Definition write_disk (d : filesystem) : M unit :=
  fun st => (Ret tt, {| disk := d; calls := calls st |}).

(** [try: body except Exception as e: handler(e)] *)
Definition try_except {A} (body : M A) (handler : exn -> M A) : M A :=
  fun st =>
    match body st with
    | (Ret a, st') => (Ret a, st')
    | (Raise e, st') => handler e st'
    end.

(** [try: body finally: cleanup]: the clean-up runs on every way out of
    the body, and an exception of its own replaces the body's outcome. *)
Definition try_finally {A} (body : M A) (cleanup : M unit) : M A :=
  fun st =>
    let '(r, st') := body st in
    match cleanup st' with
    | (Ret _, st'') => (r, st'')
    | (Raise e, st'') => (Raise e, st'')
    end.

End Handler.

Declare Scope handler_scope.
Delimit Scope handler_scope with handler.
Notation "'do' x <- m ; k" := (Handler.bind m (fun x => k))
  (at level 10, x name, m at level 100, k at level 200) : handler_scope.
Notation "'do' '_' <- m ; k" := (Handler.bind m (fun _ => k))
  (at level 10, m at level 100, k at level 200) : handler_scope.

Section Upload.
Context (w : World).
Local Open Scope handler_scope.
Import Handler.

(** [app.config['UPLOAD_FOLDER']] *)
Definition UPLOAD_FOLDER : pystr := lit "uploads".

(** [jsonify(d)]: the response whose body is the JSON object [d]. *)
Definition jsonify (d : list (pystr * pyval)) : pyval := PDict d.

Definition error_response (msg : pystr) : pyval :=
  jsonify [(lit "error", PStr msg)].

(** [file.save(filepath)] *)
Definition file_save (file : FileStorage) (filepath : pystr) : M unit :=
  do _ <- record (FileSave filepath) ;
  do d <- read_disk ;
  match save_result w filepath (stream file) with
  | Saved => write_disk (<[filepath := stream file]> d)
  | SaveFailed e left_on_disk =>
      do _ <- match left_on_disk with
              | Some b => write_disk (<[filepath := b]> d)
              | None => ret tt
              end ;
      lift (Raise e)
  end.

(** [fitz.open(filepath)] *)
Definition fitz_open (filepath : pystr) : M (list Page) :=
  do _ <- record (FitzOpen filepath) ;
  do d <- read_disk ;
  match d !! filepath with
  | Some b => lift (fitz_document w b)
  | None =>
      lift (Raise (Exn OtherException (lit "no such file: '" ++ filepath ++ lit "'")))
  end.

Definition print (line : pystr) : M unit := record (Print line).

Definition call_ocr_with_ocrspace (file_path : pystr) : M pystr :=
  do d <- read_disk ;
  let returned := ocr_with_ocrspace w d file_path in
  do _ <- record (OcrWithOcrspace file_path returned) ;
  lift returned.

Definition call_summarize_with_ai (text : pystr) : M pystr :=
  let returned := summarize_with_ai w text in
  do _ <- record (SummarizeWithAi text returned) ;
  lift returned.

(** [os.path.exists(path)] *)
Definition os_path_exists (path : pystr) : M bool :=
  do d <- read_disk ;
  ret (path_exists d path).

(** [os.remove(path)] *)
Definition os_remove (path : pystr) : M unit :=
  do _ <- record (OsRemove path) ;
  do d <- read_disk ;
  match remove_result w d path with
  | Ret d' => write_disk d'
  | Raise e => lift (Raise e)
  end.

(** Lines 108 to 116.  When the step returns from the handler it gives
    [inl response]; when it goes on it gives [inr full_text]. *)
Definition extract_text (filepath : pystr) : M (pyval + pystr) :=
  do doc <- fitz_open filepath ;
  do pages <- lift (Py.comprehension get_text doc) ;
  let full_text := PyStr.join pages in
  (* doc.close() *)
  if (length (strip full_text) <? 100)%nat then
    do _ <- print (lit "Detected a scanned PDF. Attempting OCR...") ;
    do full_text <- call_ocr_with_ocrspace filepath ;
    if contains OCR_MARKER full_text then
      ret (inl (error_response full_text))
    else ret (inr full_text)
  else ret (inr full_text).

(** Lines 118 to 125, with the text at hand. *)
Definition summarize_text (full_text : pystr) : M pyval :=
  if PyStr.eqb (strip full_text) [] then
    ret (error_response (lit "Could not extract any text from this PDF."))
  else
    do summary <- call_summarize_with_ai full_text ;
    if contains GEMINI_MARKER summary then
      ret (error_response summary)
    else
      ret (jsonify [(lit "extracted_text", PStr full_text);
                    (lit "summary", PStr summary)]).

(** The body of the [try]. *)
Definition process_pdf (file : FileStorage) (filepath : pystr) : M pyval :=
  do _ <- file_save file filepath ;
  do step <- extract_text filepath ;
  match step with
  | inl response => ret response
  | inr full_text => summarize_text full_text
  end.

(** The [finally] clause.  [filepath] is [None] until the first statement
    of the [try] has assigned it. *)
Definition cleanup (filepath : option pystr) : M unit :=
  match filepath with
  | Some p =>
      if negb (PyStr.eqb p []) then
        do there <- os_path_exists p ;
        if there then os_remove p else ret tt
      else ret tt
  | None => ret tt
  end.

Definition upload_file (request : Request) : M pyval :=
  match files_get (lit "file") (files request) with
  | None => ret (error_response (lit "No file part"))
  | Some file =>
      if PyStr.eqb (filename file) [] then
        ret (error_response (lit "No selected file"))
      else if FileStorage_bool file && endswith (filename file) (lit ".pdf") then
        (* os.path.join does not raise on two strings *)
        let filepath := path_join UPLOAD_FOLDER (filename file) in
        try_finally
          (try_except
             (process_pdf file filepath)
             (fun e => ret (error_response (exn_str e))))
          (cleanup (Some filepath))
      else
        ret (error_response (lit "Invalid file type. Please upload a PDF."))
  end.

End Upload.

(** One request, served with [d] on disk and nothing recorded yet. *)
Definition serve (w : World) (request : Request) (d : filesystem) : pyres pyval * State :=
  upload_file w request {| disk := d; calls := [] |}.

Definition is_ocr_call (c : call) : bool :=
  match c with OcrWithOcrspace _ _ => true | _ => false end.

Definition is_summarize_call (c : call) : bool :=
  match c with SummarizeWithAi _ _ => true | _ => false end.

(** The text PyMuPDF extracts from the contents of a file: lines 108 to 110. *)
Definition local_text (w : World) (b : list byte) : pyres pystr :=
  Py.bind (fitz_document w b) (fun doc =>
  Py.bind (Py.comprehension get_text doc) (fun pages =>
  Ret (PyStr.join pages))).

(** ** What counts as a successful exchange with a remote service *)

(** An entry of [ParsedResults] and the text it carries: a JSON object whose
    [ParsedText], when present, is a string. *)
Definition parsed_text_of (item : pyval) (t : pystr) : Prop :=
  exists d, item = PDict d
            /\ default (PStr []) (Py.dict_lookup (lit "ParsedText") d) = PStr t.

(** OCR.space was given the contents [f] and answered with parsed text: the
    key is configured, the request went through, the body is a JSON object
    that does not report a processing error and lists one parsed result or
    more; [text] is their texts put together. *)
Definition ocr_success (w : World) (f : list byte) (text : pystr) : Prop :=
  exists key r d items texts,
    OCR_SPACE_API_KEY w = Some key /\ key <> []
    /\ requests_post w (lit "https://api.ocr.space/parse/image") f (ocr_payload key) = Ret r
    /\ raise_for_status r = Ret tt
    /\ json r = Ret (PDict d)
    /\ Py.truthy (default PNone (Py.dict_lookup (lit "IsErroredOnProcessing") d)) = false
    /\ Py.dict_lookup (lit "ParsedResults") d = Some (PList items)
    /\ items <> []
    /\ Forall2 parsed_text_of items texts
    /\ text = concat texts.

(** Gemini was asked about [text] and answered [summary]. *)
Definition summary_success (w : World) (text summary : pystr) : Prop :=
  key_missing (GEMINI_API_KEY w) = false
  /\ generate_content_text w (lit "gemini-2.5-flash") (prompt text) = Ret summary.

(** ** The ways through the handler *)

Definition add_calls (st : State) (cs : list call) : State :=
  {| disk := disk st; calls := calls st ++ cs |}.

Section Paths.
Context (w : World) (file : FileStorage) (filepath : pystr).

(** Lines 108 to 116, with [d] on disk: what the step produces and the
    calls it makes.  The step raises, or it returns from the handler with
    a response, or it goes on with a text. *)
Inductive text_stage (d : filesystem) : pyres (pyval + pystr) -> list call -> Prop :=
| ExtractionRaised e :
    local_text w (stream file) = Raise e ->
    text_stage d (Raise e) [FitzOpen filepath]
| DirectText t :
    local_text w (stream file) = Ret t ->
    (100 <= length (strip t))%nat ->
    text_stage d (Ret (inr t)) [FitzOpen filepath]
| OcrFailed t returned :
    local_text w (stream file) = Ret t ->
    (length (strip t) < 100)%nat ->
    ocr_with_ocrspace w d filepath = Ret returned ->
    contains OCR_MARKER returned = true ->
    text_stage d (Ret (inl (error_response returned)))
      [FitzOpen filepath;
       Print (lit "Detected a scanned PDF. Attempting OCR...");
       OcrWithOcrspace filepath (Ret returned)]
| OcrText t returned :
    local_text w (stream file) = Ret t ->
    (length (strip t) < 100)%nat ->
    ocr_with_ocrspace w d filepath = Ret returned ->
    contains OCR_MARKER returned = false ->
    text_stage d (Ret (inr returned))
      [FitzOpen filepath;
       Print (lit "Detected a scanned PDF. Attempting OCR...");
       OcrWithOcrspace filepath (Ret returned)].

(** Lines 118 to 125, with the text at hand. *)
Inductive summary_stage (full_text : pystr) : pyval -> list call -> Prop :=
| NoText :
    strip full_text = [] ->
    summary_stage full_text
      (error_response (lit "Could not extract any text from this PDF.")) []
| SummaryFailed summary :
    strip full_text <> [] ->
    summarize_with_ai w full_text = Ret summary ->
    contains GEMINI_MARKER summary = true ->
    summary_stage full_text (error_response summary)
      [SummarizeWithAi full_text (Ret summary)]
| Summarized summary :
    strip full_text <> [] ->
    summarize_with_ai w full_text = Ret summary ->
    contains GEMINI_MARKER summary = false ->
    summary_stage full_text
      (jsonify [(lit "extracted_text", PStr full_text); (lit "summary", PStr summary)])
      [SummarizeWithAi full_text (Ret summary)].

(** The [try] and its [except], started with [d] on disk: the response,
    the calls, and the disk the [finally] clause finds. *)
Inductive pdf_run (d : filesystem) : pyval -> list call -> filesystem -> Prop :=
| SaveRaised e left_on_disk :
    save_result w filepath (stream file) = SaveFailed e left_on_disk ->
    pdf_run d (error_response (exn_str e)) [FileSave filepath]
      (match left_on_disk with Some b => <[filepath := b]> d | None => d end)
| TextRaised e cs :
    save_result w filepath (stream file) = Saved ->
    text_stage (<[filepath := stream file]> d) (Raise e) cs ->
    pdf_run d (error_response (exn_str e)) (FileSave filepath :: cs)
      (<[filepath := stream file]> d)
| ReturnedEarly response cs :
    save_result w filepath (stream file) = Saved ->
    text_stage (<[filepath := stream file]> d) (Ret (inl response)) cs ->
    pdf_run d response (FileSave filepath :: cs) (<[filepath := stream file]> d)
| WentOn full_text cs response cs' :
    save_result w filepath (stream file) = Saved ->
    text_stage (<[filepath := stream file]> d) (Ret (inr full_text)) cs ->
    summary_stage full_text response cs' ->
    pdf_run d response (FileSave filepath :: cs ++ cs') (<[filepath := stream file]> d).

End Paths.

(** A request that gets as far as the [try]: the field is there, the file
    has a name, and the name ends in [.pdf]. *)
Definition reaches_pdf_branch (request : Request) (file : FileStorage) : Prop :=
  files_get (lit "file") (files request) = Some file
  /\ filename file <> []
  /\ endswith (filename file) (lit ".pdf") = true.

(** [.PDF], [.Pdf] and the like: the extension up to the case of its
    ASCII letters. *)
Definition ascii_lower (c : N) : N :=
  if (65 <=? c) && (c <=? 90) then c + 32 else c.

Definition pdf_extension_any_case (ext : pystr) : bool :=
  PyStr.eqb (ascii_lower <$> ext) (lit ".pdf").

(** ** Sample worlds and requests *)

Module Samples.

(** OCR.space answering with one parsed result. *)
Definition ocr_body (text : pystr) : pyval :=
  PDict [ (lit "ParsedResults", PList [PDict [(lit "ParsedText", PStr text)]]);
          (lit "IsErroredOnProcessing", PBool false) ].

Definition ocr_response (text : pystr) : Response :=
  {| raise_for_status := Ret tt; json := Ret (ocr_body text) |}.

(** A world in which every call goes through: the PDF has one page with
    the text [page], OCR.space parses [ocr], Gemini answers [summary]. *)
Definition world (gemini_key : option pystr) (page ocr summary : pystr) : World :=
  {| OCR_SPACE_API_KEY := Some (lit "K1");
     GEMINI_API_KEY := gemini_key;
     py_repr := fun _ => lit "<repr>";
     save_result := fun _ _ => Saved;
     fitz_document := fun _ => Ret [ {| get_text := Ret page |} ];
     requests_post := fun _ _ _ => Ret (ocr_response ocr);
     generate_content_text := fun _ _ => Ret summary |}.

(** 120 letters: a page with enough text. *)
Definition long_page : pystr := repeat 97 120.

Definition text_pdf : World :=
  world (Some (lit "K2")) long_page (lit "unused") (lit "All values are normal.").

Definition scanned_pdf : World :=
  world (Some (lit "K2")) [] (lit "Hb 13.5 g/dL") (lit "All values are normal.").





(** PyMuPDF refuses the file. *)
Definition broken_pdf : World :=
  {| OCR_SPACE_API_KEY := Some (lit "K1");
     GEMINI_API_KEY := Some (lit "K2");
     py_repr := fun _ => lit "<repr>";
     save_result := fun _ _ => Saved;
     fitz_document := fun _ => Raise (Exn OtherException (lit "Failed to open file"));
     requests_post := fun _ _ _ => Ret (ocr_response []);
     generate_content_text := fun _ _ => Ret [] |}.

Definition upload (name : pystr) : Request :=
  {| files := [(lit "file", {| filename := name; stream := [x25; x50; x44; x46] |})] |}.

Definition report : FileStorage :=
  {| filename := lit "report.pdf"; stream := [x25; x50; x44; x46] |}.

Definition no_file_part : Request := {| files := [] |}.

(** A world in which [requests.post] has the outcome [posted]. *)
Definition ocr_world (posted : pyres Response) : World :=
  {| OCR_SPACE_API_KEY := Some (lit "K1");
     GEMINI_API_KEY := Some (lit "K2");
     py_repr := fun _ => lit "<repr>";
     save_result := fun _ _ => Saved;
     fitz_document := fun _ => Ret [];
     requests_post := fun _ _ _ => posted;
     generate_content_text := fun _ _ => Ret [] |}.

Definition answered (body : pyval) : pyres Response :=
  Ret {| raise_for_status := Ret tt; json := Ret body |}.

(** The upload, once saved. *)
Definition saved_report : filesystem := {[ lit "uploads/report.pdf" := [x25; x50; x44; x46] ]}.

(** OCR.space reporting an error next to a parsed text. *)
Definition errored_body : list (pystr * pyval) :=
  [ (lit "IsErroredOnProcessing", PBool true);
    (lit "ErrorMessage", PList [PStr (lit "File too large"); PStr (lit "E301")]);
    (lit "ParsedResults", PList [PDict [(lit "ParsedText", PStr (lit "Hb 13.5"))]]) ].

(** The same without a message. *)
Definition errored_body_without_message : list (pystr * pyval) :=
  [ (lit "IsErroredOnProcessing", PInt 1) ].

Definition empty_results_body : list (pystr * pyval) :=
  [ (lit "IsErroredOnProcessing", PBool false); (lit "ParsedResults", PList []) ].

(** The keys are there but empty. *)
Definition empty_keys (page : pystr) : World :=
  {| OCR_SPACE_API_KEY := Some [];
     GEMINI_API_KEY := Some [];
     py_repr := fun _ => lit "<repr>";
     save_result := fun _ _ => Saved;
     fitz_document := fun _ => Ret [ {| get_text := Ret page |} ];
     requests_post := fun _ _ _ => Ret (ocr_response (lit "unused"));
     generate_content_text := fun _ _ => Ret (lit "unused") |}.

(** The disk is full: the save stops after two bytes. *)
Definition disk_full : World :=
  {| OCR_SPACE_API_KEY := Some (lit "K1");
     GEMINI_API_KEY := Some (lit "K2");
     py_repr := fun _ => lit "<repr>";
     save_result := fun _ _ =>
       SaveFailed (Exn OSError (lit "[Errno 28] No space left on device")) (Some [x25; x50]);
     fitz_document := fun _ => Ret [];
     requests_post := fun _ _ _ => Ret (ocr_response []);
     generate_content_text := fun _ _ => Ret [] |}.

(** A PDF whose second page cannot be read. *)
Definition second_page_unreadable : World :=
  {| OCR_SPACE_API_KEY := Some (lit "K1");
     GEMINI_API_KEY := Some (lit "K2");
     py_repr := fun _ => lit "<repr>";
     save_result := fun _ _ => Saved;
     fitz_document := fun _ =>
       Ret [ {| get_text := Ret long_page |};
             {| get_text := Raise (Exn OtherException (lit "page 2 is damaged")) |};
             {| get_text := Raise (Exn OtherException (lit "page 3 is damaged")) |} ];
     requests_post := fun _ _ _ => Ret (ocr_response []);
     generate_content_text := fun _ _ => Ret [] |}.

(** 150 blanks: a long page with nothing on it. *)
Definition blank_page : pystr := repeat 32 150.

Definition one_page (text : pystr) : list byte -> pyres (list Page) :=
  fun _ => Ret [ {| get_text := Ret text |} ].

(** An older upload that the process may write to, in a folder it may not
    remove from. *)
Definition no_removal : filesystem :=
  {| entry := normpath;
     nodes := {[ lit "uploads/report.pdf" := File [x00] ]};
     refusal := fun e =>
       if PyStr.eqb e (lit "uploads/report.pdf")
       then Some (Exn OSError (lit "[Errno 13] Permission denied: 'uploads/report.pdf'"))
       else None |}.

(** A directory has the name of the upload. *)
Definition directory_in_the_way : filesystem :=
  {| entry := normpath;
     nodes := {[ lit "uploads/report.pdf" := Directory ]};
     refusal := fun _ => None |}.

(** The save that such a directory makes fail. *)
Definition save_on_directory : World :=
  {| OCR_SPACE_API_KEY := Some (lit "K1");
     GEMINI_API_KEY := Some (lit "K2");
     py_repr := fun _ => lit "'uploads/report.pdf'";
     save_result := fun _ _ =>
       SaveFailed (Exn OSError (lit "[Errno 21] Is a directory: 'uploads/report.pdf'")) None;
     fitz_document := fun _ => Ret [];
     requests_post := fun _ _ _ => Ret (ocr_response []);
     generate_content_text := fun _ _ => Ret [] |}.

(** A manual that came with the system: the process may read it, and may
    neither write to it nor remove it. *)
Definition system_manual : filesystem :=
  {| entry := normpath;
     nodes := {[ lit "/usr/share/doc/manual.pdf" := File [x25; x50; x44; x46] ]};
     refusal := fun e =>
       if PyStr.eqb e (lit "/usr/share/doc/manual.pdf")
       then Some (Exn OSError (lit "[Errno 13] Permission denied: '/usr/share/doc/manual.pdf'"))
       else None |}.

(** The save that such a file makes fail. *)
Definition save_on_read_only_file : World :=
  {| OCR_SPACE_API_KEY := Some (lit "K1");
     GEMINI_API_KEY := Some (lit "K2");
     py_repr := fun _ => lit "'/usr/share/doc/manual.pdf'";
     save_result := fun _ _ =>
       SaveFailed (Exn OSError (lit "[Errno 13] Permission denied: '/usr/share/doc/manual.pdf'"))
         None;
     fitz_document := fun _ => Ret [];
     requests_post := fun _ _ _ => Ret (ocr_response []);
     generate_content_text := fun _ _ => Ret [] |}.

(** A file beside the upload folder. *)
Definition report_beside_the_folder : filesystem := {[ lit "report.pdf" := [x01; x02] ]}.

(** The name of the upload is a link in the folder to a file elsewhere. *)
Definition link_in_the_folder : filesystem :=
  {| entry := normpath;
     nodes := {[ lit "uploads/report.pdf" := Link (lit "archive/2019.pdf");
                 lit "archive/2019.pdf" := File [x01; x02] ]};
     refusal := fun _ => None |}.


(** Something else is already in the upload folder. *)
Definition other_upload : filesystem := {[ lit "uploads/other.pdf" := [x00] ]}.

End Samples.

(** ** More of the helpers and of the handler *)

(** The exchange with OCR.space went through and the body of the answer
    decoded to [body]: the file is there, the key is configured, and
    neither [requests.post], [raise_for_status] nor [json] raised. *)
Definition ocr_answered (w : World) (d : filesystem) (file_path : pystr) (body : pyval) : Prop :=
  exists f key r,
    d !! file_path = Some f
    /\ OCR_SPACE_API_KEY w = Some key /\ key <> []
    /\ requests_post w (lit "https://api.ocr.space/parse/image") f (ocr_payload key) = Ret r
    /\ raise_for_status r = Ret tt
    /\ json r = Ret body.

(** Lines 42 to 46 of [ocr_with_ocrspace]: what is made of the decoded
    body. *)
Definition read_ocr_result (w : World) (result : pyval) : pyres pystr :=
  Py.bind (Py.get result (lit "IsErroredOnProcessing") PNone) (fun errored =>
  if Py.truthy errored then
    Py.bind (Py.get result (lit "ErrorMessage") (PList [PStr (lit "Unknown error")]))
      (fun messages =>
    Py.bind (Py.item0 messages) (fun first =>
    Ret (lit "OCR.space Error: " ++ format_value w first)))
  else
    Py.bind (Py.get result (lit "ParsedResults") PNone) (fun parsed =>
    if Py.truthy parsed then
      Py.bind (Py.getitem result (lit "ParsedResults")) (fun results =>
      Py.bind (Py.iter results) (fun items =>
      Py.bind (Py.comprehension
                 (fun res => Py.get res (lit "ParsedText") (PStr [])) items)
        Py.join))
    else
      Ret (lit "OCR.space Error: No text could be parsed."))).

(** The classes of the exceptions Python itself raises while the body is
    read. *)
Definition raised_by_python (e : exn) : bool :=
  match exn_cls e with
  | AttributeError | TypeError | IndexError | KeyError => true
  | _ => false
  end.

Definition OCR_KEY_MISSING : pystr :=
  lit "OCR.space Error: API key not found. Please create a .env file and add your OCR_SPACE_API_KEY.".

Definition GEMINI_KEY_MISSING : pystr :=
  lit "Gemini Error: API key not found. Please add GEMINI_API_KEY to your .env file.".

(** The world [w] with another PDF library answer. *)
Definition with_document (w : World) (document : list byte -> pyres (list Page)) : World :=
  {| OCR_SPACE_API_KEY := OCR_SPACE_API_KEY w;
     GEMINI_API_KEY := GEMINI_API_KEY w;
     py_repr := py_repr w;
     save_result := save_result w;
     fitz_document := document;
     requests_post := requests_post w;
     generate_content_text := generate_content_text w |}.

(** Lines 130 to 132 after a [try] that has settled on the response [r]:
    the [finally] clause looks whether the path exists and removes it; an
    exception of [os.remove] takes the place of the response. *)
Definition finish (w : World) (filepath : pystr) (r : pyval) (st : State)
  : pyres pyval * State :=
  if path_exists (disk st) filepath then
    match remove_result w (disk st) filepath with
    | Ret d' => (Ret r, {| disk := d'; calls := calls st ++ [OsRemove filepath] |})
    | Raise e => (Raise e, {| disk := disk st; calls := calls st ++ [OsRemove filepath] |})
    end
  else (Ret r, st).

(** The handler did not return: [os.remove] raised in the [finally] clause,
    and its exception left the handler. *)
Definition cleanup_failed (w : World) (out : pyres pyval * State) : Prop :=
  exists path e,
    out.1 = Raise e
    /\ In (OsRemove path) (calls out.2)
    /\ remove_result w (disk out.2) path = Raise e.

(** The calls a request makes between saving the file and removing it. *)
Definition ocr_calls (filepath : pystr) (cs : list call) : Prop :=
  cs = []
  \/ exists returned,
       cs = [ Print (lit "Detected a scanned PDF. Attempting OCR...");
              OcrWithOcrspace filepath returned ].

Definition summarize_calls (cs : list call) : Prop :=
  cs = [] \/ exists text returned, cs = [SummarizeWithAi text returned].

(** ** Facts about strings *)

Section StringFacts.
Implicit Types s p t : pystr.

Lemma startswith_app p t : startswith (p ++ t) p = true.
Proof.
  induction p as [|c p IH]; simpl; [done|].
  by rewrite N.eqb_refl, IH.
Qed.

Lemma startswith_inv s p : startswith s p = true -> exists t, s = p ++ t.
Proof.
  revert s. induction p as [|c p IH]; intros s H; simpl in H.
  - by exists s.
  - destruct s as [|d s]; [done|].
    apply andb_true_iff in H as [Hc Hs]. apply N.eqb_eq in Hc. subst d.
    destruct (IH s Hs) as [t ->]. by exists t.
Qed.

Lemma startswith_iff s p : startswith s p = true <-> exists t, s = p ++ t.
Proof.
  split; [apply startswith_inv|]. intros [t ->]. apply startswith_app.
Qed.

Lemma endswith_iff s p : endswith s p = true <-> exists t, s = t ++ p.
Proof.
  unfold endswith. rewrite startswith_iff. split.
  - intros [t H]. exists (rev t).
    apply (f_equal (@rev N)) in H. by rewrite rev_involutive, rev_app_distr, rev_involutive in H.
  - intros [t ->]. exists (rev t). by rewrite rev_app_distr.
Qed.

Lemma contains_unfold p s :
  contains p s
  = startswith s p || match s with [] => false | _ :: s' => contains p s' end.
Proof. by destruct s. Qed.

(** [in] is the substring test: the needle may stand anywhere. *)
Lemma contains_iff p s :
  contains p s = true <-> exists pre post, s = pre ++ p ++ post.
Proof.
  split.
  - induction s as [|c s IH]; simpl; intros H.
    + apply orb_true_iff in H as [H|H]; [|done].
      apply startswith_inv in H as [t ->]. by exists [], t.
    + apply orb_true_iff in H as [H|H].
      * apply startswith_inv in H as [t ->]. by exists [], t.
      * destruct (IH H) as (pre & post & ->). by exists (c :: pre), post.
  - intros (pre & post & ->). induction pre as [|c pre IH].
    + rewrite contains_unfold. simpl. by rewrite startswith_app.
    + rewrite contains_unfold. simpl. by rewrite IH, orb_true_r.
Qed.

Lemma startswith_contains s p : startswith s p = true -> contains p s = true.
Proof.
  intros [t ->]%startswith_inv. apply contains_iff. by exists [], t.
Qed.

Lemma eqb_true s t : PyStr.eqb s t = true <-> s = t.
Proof. unfold PyStr.eqb. apply bool_decide_eq_true. Qed.

Lemma eqb_false s t : PyStr.eqb s t = false <-> s <> t.
Proof. unfold PyStr.eqb. apply bool_decide_eq_false. Qed.

Lemma path_join_nonempty a b : b <> [] -> path_join a b <> [].
Proof.
  intros Hb. unfold path_join.
  destruct (startswith b (lit "/")); [done|].
  destruct (PyStr.eqb a [] || endswith a (lit "/")).
  - intros [_ ?]%app_eq_nil. done.
  - intros [_ H]%app_eq_nil. by apply app_eq_nil in H as [_ ?].
Qed.

(** A suffix of the right length that is not the extension itself rules
    [endswith] out. *)
Lemma endswith_other_suffix stem ext p :
  length ext = length p -> ext <> p -> endswith (stem ++ ext) p = false.
Proof.
  intros Hlen Hne. destruct (endswith (stem ++ ext) p) eqn:E; [|done].
  apply endswith_iff in E as [t E]. exfalso. apply Hne.
  apply (f_equal (@rev N)) in E. rewrite !rev_app_distr in E.
  apply app_inj_1 in E as [E _]; [|by rewrite !length_rev].
  apply (f_equal (@rev N)) in E. by rewrite !rev_involutive in E.
Qed.

End StringFacts.

(** ** The two helpers *)

Section HelperFacts.
Context (w : World).

Lemma ocr_marker_prefix rest :
  startswith (lit "OCR.space Error: " ++ rest) OCR_MARKER = true.
Proof. reflexivity. Qed.

#[local] Instance PStr_inj : Inj (=) (=) PStr.
Proof. by intros s t [= ->]. Qed.

Lemma join_from_ret i l s :
  Py.join_from i l = Ret s <-> exists texts, l = PStr <$> texts /\ s = concat texts.
Proof.
  revert i s. induction l as [|v l IH]; intros i s; simpl.
  - split.
    + intros [= <-]. by exists [].
    + intros (texts & Hl & ->). symmetry in Hl. apply fmap_nil_inv in Hl. by subst.
  - destruct v; try (split; [done | by intros ([|??] & [=] & _)]).
    destruct (Py.join_from (S i) l) as [r|e] eqn:E; simpl.
    + apply IH in E as (texts & -> & ->). split.
      * intros [= <-]. by exists (s0 :: texts).
      * intros ([|t texts'] & [= -> Hl] & ->).
        apply (inj (fmap PStr)) in Hl. by subst.
    + split; [done|]. intros ([|t texts'] & [= -> Hl] & ->).
      assert (Py.join_from (S i) l = Ret (concat texts')) as E'
        by (apply IH; eauto). congruence.
Qed.

Lemma comprehension_get_ret items vals :
  Py.comprehension (fun res => Py.get res (lit "ParsedText") (PStr [])) items = Ret vals
  <-> Forall2 (fun item v => exists d, item = PDict d
                 /\ default (PStr []) (Py.dict_lookup (lit "ParsedText") d) = v)
        items vals.
Proof.
  revert vals. induction items as [|item items IH]; intros vals; simpl.
  - split.
    + intros [= <-]. constructor.
    + intros H. by inversion H.
  - split.
    + intros H. destruct item; try done. simpl in H.
      destruct (Py.comprehension _ items) as [vs|e] eqn:E; [|done].
      simpl in H. injection H as <-. constructor; [eauto|]. by apply IH.
    + intros H. inversion H as [|? v ? vs (d & -> & Hv) Hrest]; subst. simpl.
      apply IH in Hrest. by rewrite Hrest.
Qed.

Lemma parsed_texts_ret items s :
  Py.bind (Py.comprehension (fun res => Py.get res (lit "ParsedText") (PStr [])) items)
    Py.join = Ret s
  <-> exists texts, Forall2 parsed_text_of items texts /\ s = concat texts.
Proof.
  split.
  - destruct (Py.comprehension _ items) as [vals|e] eqn:E; [|done]. simpl.
    intros (texts & -> & ->)%join_from_ret. exists texts. split; [|done].
    apply comprehension_get_ret in E. apply Forall2_fmap_r in E.
    eapply Forall2_impl; [exact E|]. intros item t H. exact H.
  - intros (texts & H & ->).
    assert (Py.comprehension (fun res => Py.get res (lit "ParsedText") (PStr [])) items
            = Ret (PStr <$> texts)) as ->.
    { apply comprehension_get_ret. apply Forall2_fmap_r.
      eapply Forall2_impl; [exact H|]. intros item t Ht. exact Ht. }
    simpl. apply join_from_ret. eauto.
Qed.

Lemma key_present (k : option pystr) :
  key_missing k = false <-> exists key, k = Some key /\ key <> [].
Proof.
  destruct k as [key|]; simpl.
  - rewrite eqb_false. split; [eauto|]. by intros (? & [= <-] & ?).
  - split; [done|]. by intros (? & [=] & _).
Qed.

(** What the [try] of [ocr_with_ocrspace] returns is marked as an error,
    or it is the text of a successful exchange. *)
Lemma ocr_request_ret d file_path s :
  key_missing (OCR_SPACE_API_KEY w) = false ->
  ocr_request w d file_path = Ret s ->
  startswith s OCR_MARKER = true
  \/ exists f, d !! file_path = Some f /\ ocr_success w f s.
Proof.
  intros (key & Hkey & Hne)%key_present. unfold ocr_request, open_rb.
  rewrite Hkey. simpl default.
  destruct (d !! file_path) as [f|] eqn:Hf; [|done]. simpl.
  destruct (requests_post _ _ _ _) as [r|] eqn:Hr; [|done]. simpl.
  destruct (raise_for_status r) as [[]|] eqn:Hs; [|done]. simpl.
  destruct (json r) as [result|] eqn:Hj; [|done]. simpl.
  destruct result as [| | | | |l|dd]; try done. simpl.
  destruct (Py.truthy (default PNone (Py.dict_lookup (lit "IsErroredOnProcessing") dd)))
    eqn:Herr.
  { destruct (Py.item0 _) as [first|]; [|done]. simpl. intros [= <-]. by left. }
  destruct (Py.dict_lookup (lit "ParsedResults") dd) as [parsed|] eqn:Hp; simpl;
    [|intros [= <-]; by left].
  destruct (Py.truthy parsed) eqn:Ht; [|intros [= <-]; by left].
  destruct parsed as [| | | |t|items|keys]; try done; simpl.
  - destruct t; done.
  - intros (texts & Hall & ->)%parsed_texts_ret. right. exists f. split; [done|].
    exists key, r, dd, items, texts. repeat split; try done.
    intros ->. done.
  - destruct keys; done.
Qed.

Lemma ocr_request_success d file_path f t :
  d !! file_path = Some f -> ocr_success w f t ->
  key_missing (OCR_SPACE_API_KEY w) = false /\ ocr_request w d file_path = Ret t.
Proof.
  intros Hf (key & r & dd & items & texts & Hkey & Hne & Hr & Hs & Hj & Herr & Hp & Hi & Hall & ->).
  split; [apply key_present; eauto|].
  unfold ocr_request, open_rb. rewrite Hf, Hkey. simpl. rewrite Hr. simpl.
  rewrite Hs, Hj. simpl. rewrite Herr, Hp. simpl.
  destruct items as [|item items]; [done|].
  apply (parsed_texts_ret (item :: items)). eauto.
Qed.

Lemma ocr_with_ocrspace_ret d file_path :
  exists s, ocr_with_ocrspace w d file_path = Ret s
            /\ (startswith s OCR_MARKER = true
                \/ exists f, d !! file_path = Some f /\ ocr_success w f s).
Proof.
  unfold ocr_with_ocrspace.
  destruct (key_missing (OCR_SPACE_API_KEY w)) eqn:Hkey; [by eauto|].
  destruct (ocr_request w d file_path) as [s|e] eqn:E; simpl.
  - exists s. split; [done|]. by apply ocr_request_ret.
  - destruct (is_RequestException e); eauto.
Qed.

Lemma ocr_with_ocrspace_success d file_path f t :
  d !! file_path = Some f -> ocr_success w f t ->
  ocr_with_ocrspace w d file_path = Ret t.
Proof.
  intros Hf Hok. destruct (ocr_request_success _ _ _ _ Hf Hok) as [Hkey E].
  unfold ocr_with_ocrspace. by rewrite Hkey, E.
Qed.

Lemma summarize_with_ai_ret text :
  exists s, summarize_with_ai w text = Ret s
            /\ (startswith s GEMINI_MARKER = true \/ summary_success w text s).
Proof.
  unfold summarize_with_ai, summary_success.
  destruct (key_missing (GEMINI_API_KEY w)); [by eauto|].
  destruct (generate_content_text _ _ _) as [s|e]; simpl; eauto.
Qed.

Lemma summarize_with_ai_success text t :
  summary_success w text t -> summarize_with_ai w text = Ret t.
Proof.
  intros [Hkey E]. unfold summarize_with_ai. by rewrite Hkey, E.
Qed.

(** C7.  Neither helper raises: [ocr_with_ocrspace] and [summarize_with_ai]
    always return a string.  Unless the exchange with the remote service
    succeeded, the string starts with the helper's marker (so it does when
    the API key is missing, when the request or the client library raises,
    and when OCR.space reports a processing error); when the exchange
    succeeded, the string is the text the service sent. *)
Theorem helpers_return_marked_string_or_service_text
    (d : filesystem) (file_path text : pystr) :
  (exists s, ocr_with_ocrspace w d file_path = Ret s
             /\ (startswith s OCR_MARKER = true
                 \/ exists f, d !! file_path = Some f /\ ocr_success w f s))
  /\ (forall f t, d !! file_path = Some f -> ocr_success w f t ->
                  ocr_with_ocrspace w d file_path = Ret t)
  /\ (exists s, summarize_with_ai w text = Ret s
                /\ (startswith s GEMINI_MARKER = true \/ summary_success w text s))
  /\ (forall t, summary_success w text t -> summarize_with_ai w text = Ret t).
Proof.
  split; [apply ocr_with_ocrspace_ret|].
  split; [apply ocr_with_ocrspace_success|].
  split; [apply summarize_with_ai_ret | apply summarize_with_ai_success].
Qed.

End HelperFacts.

(** ** The disk *)

Section DiskFacts.
Implicit Types (d : filesystem) (path : pystr) (b : list byte).

Lemma nodes_insert d path b :
  nodes (<[path := b]> d) = <[reached d path := File b]> (nodes d).
Proof. reflexivity. Qed.

Lemma entry_insert d path b : entry (<[path := b]> d) = entry d.
Proof. reflexivity. Qed.

Lemma nodes_delete d path : nodes (delete path d) = delete (entry d path) (nodes d).
Proof. reflexivity. Qed.

Lemma entry_delete d path : entry (delete path d) = entry d.
Proof. reflexivity. Qed.

Lemma reached_insert d path b : reached (<[path := b]> d) path = reached d path.
Proof.
  unfold reached at 1. rewrite nodes_insert, entry_insert. unfold reached.
  destruct (nodes d !! entry d path) as [[c| |target]|] eqn:E;
    try by rewrite lookup_insert_eq.
  rewrite lookup_insert. case_decide as Ht; [by subst|]. by rewrite E.
Qed.

(** What was written to a path is what opening the path gives. *)
Lemma disk_lookup_insert d path b : <[path := b]> d !! path = Some b.
Proof.
  unfold lookup at 1, filesystem_lookup.
  by rewrite reached_insert, nodes_insert, lookup_insert_eq.
Qed.

Lemma disk_exists_insert d path b : path_exists (<[path := b]> d) path = true.
Proof.
  unfold path_exists. by rewrite reached_insert, nodes_insert, lookup_insert_eq.
Qed.

Lemma reached_delete d path : reached (delete path d) path = entry d path.
Proof.
  unfold reached. by rewrite nodes_delete, entry_delete, lookup_delete_eq.
Qed.

(** Once its entry is removed, a path leads nowhere. *)
Lemma disk_lookup_delete d path : delete path d !! path = None.
Proof.
  unfold lookup at 1, filesystem_lookup.
  by rewrite reached_delete, nodes_delete, lookup_delete_eq.
Qed.

Lemma disk_exists_delete d path : path_exists (delete path d) path = false.
Proof.
  unfold path_exists. by rewrite reached_delete, nodes_delete, lookup_delete_eq.
Qed.

Lemma disk_lookup_singleton path b : ({[ path := b ]} : filesystem) !! path = Some b.
Proof. apply disk_lookup_insert. Qed.

Lemma disk_exists_lookup d path b : d !! path = Some b -> path_exists d path = true.
Proof.
  unfold lookup, filesystem_lookup, path_exists.
  by destruct (nodes d !! reached d path) as [[]|].
Qed.

Lemma disk_lookup_not_exists d path : path_exists d path = false -> d !! path = None.
Proof.
  unfold lookup, filesystem_lookup, path_exists.
  by destruct (nodes d !! reached d path) as [[]|].
Qed.

(** A removal that goes through removes the entry of the path, and nothing
    else changes. *)
Lemma remove_result_ret w d path d' :
  remove_result w d path = Ret d' -> d' = delete path d.
Proof.
  unfold remove_result.
  destruct (nodes d !! entry d path) as [[| |]|]; try done;
    destruct (refusal d (entry d path)); by intros [= <-].
Qed.

End DiskFacts.

(** ** The handler *)

Arguments lit : simpl never.

Section UploadFacts.
Context (w : World).
Import Handler.

Lemma add_calls_nil st : add_calls st [] = st.
Proof. destruct st. unfold add_calls. simpl. by rewrite app_nil_r. Qed.

Lemma add_calls_app st cs cs' :
  add_calls (add_calls st cs) cs' = add_calls st (cs ++ cs').
Proof. unfold add_calls. simpl. by rewrite app_assoc. Qed.

Lemma local_text_ret b doc pages :
  fitz_document w b = Ret doc -> Py.comprehension get_text doc = Ret pages ->
  local_text w b = Ret (PyStr.join pages).
Proof. intros H1 H2. unfold local_text. rewrite H1. simpl. by rewrite H2. Qed.

Lemma extract_text_run (file : FileStorage) filepath st :
  disk st !! filepath = Some (stream file) ->
  exists r cs, extract_text w filepath st = (r, add_calls st cs)
               /\ text_stage w file filepath (disk st) r cs.
Proof.
  intros Hd. unfold extract_text, fitz_open, bind, record, read_disk, lift. simpl.
  rewrite Hd. unfold local_text.
  destruct (fitz_document w (stream file)) as [doc|e] eqn:Hdoc.
  2:{ eexists _, [_]. split; [reflexivity|]. constructor.
      unfold local_text. by rewrite Hdoc. }
  destruct (Py.comprehension get_text doc) as [pages|e] eqn:Hpages.
  2:{ eexists _, [_]. split; [reflexivity|]. constructor.
      unfold local_text. rewrite Hdoc. simpl. by rewrite Hpages. }
  pose proof (local_text_ret _ _ _ Hdoc Hpages) as Ht.
  destruct (length (strip (PyStr.join pages)) <? 100)%nat eqn:Hlen.
  2:{ eexists _, [_]. split; [reflexivity|]. apply DirectText; [done|].
      apply Nat.ltb_ge in Hlen. lia. }
  apply Nat.ltb_lt in Hlen.
  unfold print, call_ocr_with_ocrspace, bind, record, read_disk, lift, ret. simpl.
  destruct (ocr_with_ocrspace_ret w (disk st) filepath) as (s & Hs & _).
  rewrite Hs.
  destruct (contains OCR_MARKER s) eqn:Hc.
  - eexists _, [_; _; _]. split.
    + unfold add_calls. simpl. by rewrite <- !app_assoc.
    + by eapply OcrFailed.
  - eexists _, [_; _; _]. split.
    + unfold add_calls. simpl. by rewrite <- !app_assoc.
    + by eapply OcrText.
Qed.

Lemma summarize_text_run full_text st :
  exists r cs, summarize_text w full_text st = (Ret r, add_calls st cs)
               /\ summary_stage w full_text r cs.
Proof.
  unfold summarize_text.
  destruct (PyStr.eqb (strip full_text) []) eqn:He.
  { apply eqb_true in He. eexists _, []. split; [|by constructor].
    by rewrite add_calls_nil. }
  apply eqb_false in He.
  unfold call_summarize_with_ai, bind, record, lift, ret. simpl.
  destruct (summarize_with_ai_ret w full_text) as (s & Hs & _). rewrite Hs.
  destruct (contains GEMINI_MARKER s) eqn:Hc.
  - eexists _, [_]. split; [reflexivity|]. by apply SummaryFailed.
  - eexists _, [_]. split; [reflexivity|]. by apply Summarized.
Qed.

(** The [try] with its [except] never raises, and takes one of the ways
    of [pdf_run]. *)
Lemma process_pdf_run file filepath d :
  exists r cs d',
    try_except (process_pdf w file filepath)
      (fun e => ret (error_response (exn_str e))) {| disk := d; calls := [] |}
    = (Ret r, {| disk := d'; calls := cs |})
    /\ pdf_run w file filepath d r cs d'.
Proof.
  unfold process_pdf, try_except, file_save, bind at 1 2 3, record, read_disk, write_disk, lift, ret.
  simpl.
  destruct (save_result w filepath (stream file)) as [|e left_on_disk] eqn:Hsave.
  2:{ destruct left_on_disk as [b|]; simpl;
        (eexists _, _, _; split; [reflexivity|]);
        [apply (SaveRaised _ _ _ _ e (Some b)) | apply (SaveRaised _ _ _ _ e None)];
        done. }
  simpl.
  set (st1 := {| disk := <[filepath := stream file]> d; calls := [FileSave filepath] |}).
  destruct (extract_text_run file filepath st1) as (r & cs & Hrun & Hstage).
  { apply disk_lookup_insert. }
  unfold bind. rewrite Hrun. simpl in Hstage.
  destruct r as [[response|full_text]|e].
  - eexists _, _, _. split; [reflexivity|]. by apply ReturnedEarly.
  - destruct (summarize_text_run full_text (add_calls st1 cs)) as (r & cs' & Hsum & Hst).
    rewrite Hsum. eexists _, _, _. split.
    + reflexivity.
    + by eapply WentOn.
  - eexists _, _, _. split; [reflexivity|]. by apply TextRaised.
Qed.

(** The [finally] clause: it calls [os.remove] when the path exists, and an
    exception of [os.remove] is its own. *)
Lemma cleanup_run filepath st :
  filepath <> [] ->
  cleanup w (Some filepath) st
  = if path_exists (disk st) filepath then
      match remove_result w (disk st) filepath with
      | Ret d' => (Ret tt, {| disk := d'; calls := calls st ++ [OsRemove filepath] |})
      | Raise e => (Raise e, {| disk := disk st; calls := calls st ++ [OsRemove filepath] |})
      end
    else (Ret tt, st).
Proof.
  intros Hne. unfold cleanup. apply eqb_false in Hne. rewrite Hne.
  unfold os_path_exists, os_remove, bind, read_disk, write_disk, record, lift, ret.
  cbn [negb disk calls].
  destruct (path_exists (disk st) filepath); [|done].
  by destruct (remove_result w (disk st) filepath).
Qed.

Lemma upload_file_pdf_unfold request file :
  reaches_pdf_branch request file ->
  upload_file w request
  = try_finally
      (try_except
         (process_pdf w file (path_join UPLOAD_FOLDER (filename file)))
         (fun e => ret (error_response (exn_str e))))
      (cleanup w (Some (path_join UPLOAD_FOLDER (filename file)))).
Proof.
  intros (Hfile & Hname & Hpdf). unfold upload_file, FileStorage_bool.
  apply eqb_false in Hname. by rewrite Hfile, Hname, Hpdf.
Qed.

(** A request that gets to the [try] takes one of the ways of [pdf_run],
    and the [finally] clause finishes it. *)
Lemma serve_pdf request file d :
  reaches_pdf_branch request file ->
  let filepath := path_join UPLOAD_FOLDER (filename file) in
  exists r cs d',
    pdf_run w file filepath d r cs d'
    /\ serve w request d = finish w filepath r {| disk := d'; calls := cs |}.
Proof.
  intros Hreach filepath. unfold serve.
  rewrite (upload_file_pdf_unfold _ _ Hreach). fold filepath.
  destruct Hreach as (Hfile & Hname & Hpdf). unfold try_finally.
  destruct (process_pdf_run file filepath d) as (r & cs & d' & Hrun & Hpath).
  rewrite Hrun, cleanup_run by (by apply path_join_nonempty).
  exists r, cs, d'. split; [done|]. unfold finish. cbn [disk calls].
  destruct (path_exists d' filepath); [|done].
  by destruct (remove_result w d' filepath).
Qed.

Lemma finish_calls filepath r st :
  exists tail,
    calls (finish w filepath r st).2 = calls st ++ tail
    /\ (tail = [] \/ tail = [OsRemove filepath]).
Proof.
  unfold finish. destruct (path_exists (disk st) filepath).
  - exists [OsRemove filepath]. split; [|by right].
    by destruct (remove_result w (disk st) filepath).
  - exists []. split; [by rewrite app_nil_r | by left].
Qed.

Lemma finish_calls_exists filepath r st :
  path_exists (disk st) filepath = true ->
  calls (finish w filepath r st).2 = calls st ++ [OsRemove filepath].
Proof.
  intros H. unfold finish. rewrite H. by destruct (remove_result w (disk st) filepath).
Qed.

(** The handler returns the response the [try] settled on, unless
    [os.remove] raised. *)
Lemma finish_outcome filepath r st :
  (finish w filepath r st).1 = Ret r \/ cleanup_failed w (finish w filepath r st).
Proof.
  unfold finish. destruct (path_exists (disk st) filepath); [|by left].
  destruct (remove_result w (disk st) filepath) as [d'|e] eqn:E; [by left|].
  right. exists filepath, e. cbn [fst snd disk calls]. repeat split; [|done].
  apply in_or_app. right. by left.
Qed.

(** When the handler returns, the path no longer exists. *)
Lemma finish_returned filepath r st r' :
  (finish w filepath r st).1 = Ret r' ->
  r' = r
  /\ path_exists (disk (finish w filepath r st).2) filepath = false
  /\ disk (finish w filepath r st).2 !! filepath = None.
Proof.
  unfold finish. destruct (path_exists (disk st) filepath) eqn:Hex.
  - destruct (remove_result w (disk st) filepath) as [d'|e] eqn:E; [|done].
    apply remove_result_ret in E as ->. cbn [fst snd disk]. intros [= <-].
    by rewrite disk_exists_delete, disk_lookup_delete.
  - cbn [fst snd]. intros [= <-]. by rewrite Hex, (disk_lookup_not_exists _ _ Hex).
Qed.

Lemma finish_raised filepath r st e :
  (finish w filepath r st).1 = Raise e ->
  In (OsRemove filepath) (calls (finish w filepath r st).2)
  /\ remove_result w (disk (finish w filepath r st).2) filepath = Raise e.
Proof.
  unfold finish. destruct (path_exists (disk st) filepath); [|done].
  destruct (remove_result w (disk st) filepath) as [d'|e'] eqn:E; [done|].
  cbn [fst snd disk calls]. intros [= <-]. split; [|done].
  apply in_or_app. right. by left.
Qed.

Lemma cleanup_failed_not_returned out r :
  out.1 = Ret r -> ~ cleanup_failed w out.
Proof. intros H (path & e & H' & _). congruence. Qed.

(** The shape the proofs about requests in the PDF branch start from. *)
Lemma upload_file_pdf request file d :
  reaches_pdf_branch request file ->
  let filepath := path_join UPLOAD_FOLDER (filename file) in
  exists r cs d' tail,
    pdf_run w file filepath d r cs d'
    /\ calls (serve w request d).2 = cs ++ tail
    /\ (tail = [] \/ tail = [OsRemove filepath])
    /\ ((serve w request d).1 = Ret r \/ cleanup_failed w (serve w request d)).
Proof.
  intros Hreach filepath.
  destruct (serve_pdf request file d Hreach) as (r & cs & d' & Hrun & ->).
  fold filepath.
  destruct (finish_calls filepath r {| disk := d'; calls := cs |}) as (tail & Hc & Ht).
  exists r, cs, d', tail. repeat split; [done..|]. apply finish_outcome.
Qed.

Lemma pdf_run_saved file filepath d r cs d' :
  save_result w filepath (stream file) = Saved ->
  pdf_run w file filepath d r cs d' -> d' = <[filepath := stream file]> d.
Proof. intros Hsave Hrun. inversion Hrun; subst; congruence. Qed.

(** When the file was saved, the last call is the one that removes it. *)
Lemma upload_file_saved request file d :
  reaches_pdf_branch request file ->
  let filepath := path_join UPLOAD_FOLDER (filename file) in
  save_result w filepath (stream file) = Saved ->
  exists r cs,
    pdf_run w file filepath d r cs (<[filepath := stream file]> d)
    /\ serve w request d
       = finish w filepath r {| disk := <[filepath := stream file]> d; calls := cs |}
    /\ calls (serve w request d).2 = cs ++ [OsRemove filepath]
    /\ ((serve w request d).1 = Ret r \/ cleanup_failed w (serve w request d)).
Proof.
  intros Hreach filepath Hsave.
  destruct (serve_pdf request file d Hreach) as (r & cs & d' & Hrun & Hs).
  fold filepath in Hrun, Hs.
  pose proof (pdf_run_saved _ _ _ _ _ _ Hsave Hrun) as ->.
  exists r, cs. rewrite Hs. repeat split; [done| |apply finish_outcome].
  apply finish_calls_exists. cbn [disk]. apply disk_exists_insert.
Qed.

End UploadFacts.

(** ** The claims about the endpoint *)

Ltac invert_paths :=
  repeat match goal with
    | H : pdf_run _ _ _ _ _ _ _ |- _ => inversion H; subst; clear H
    | H : text_stage _ _ _ _ _ _ |- _ => inversion H; subst; clear H
    | H : summary_stage _ _ _ _ |- _ => inversion H; subst; clear H
    | H : _ = [] \/ _ = [_] |- _ => destruct H; subst
    end.

(** Two outcomes of one call are the same outcome. *)
Ltac same_results :=
  try congruence;
  repeat match goal with
    | H1 : ?x = Ret ?a, H2 : ?x = Ret ?b |- _ =>
        assert (a = b) by congruence; subst; clear H2
    end.

Section Claims.
Context (w : World).

Local Abbreviation filepath_of file := (path_join UPLOAD_FOLDER (filename file)).

(** C1, as the code has it.  A request that gets to the PDF branch saves
    the upload, and on every way out of the [try] the [finally] clause
    looks after the path it was saved to.  Either the handler returns a
    response, and then that path does not exist on the disk any more; or
    [os.remove] raised on that path, and its exception left the handler. *)
Theorem upload_leaves_no_file (request : Request) (file : FileStorage) (d : filesystem) :
  reaches_pdf_branch request file ->
  In (FileSave (filepath_of file)) (calls (serve w request d).2)
  /\ ((exists response,
         (serve w request d).1 = Ret response
         /\ path_exists (disk (serve w request d).2) (filepath_of file) = false
         /\ disk (serve w request d).2 !! filepath_of file = None)
      \/ (exists e,
            (serve w request d).1 = Raise e
            /\ In (OsRemove (filepath_of file)) (calls (serve w request d).2)
            /\ remove_result w (disk (serve w request d).2) (filepath_of file) = Raise e)).
Proof.
  intros Hreach.
  destruct (serve_pdf w request file d Hreach) as (r & cs & d' & Hrun & ->).
  split.
  - destruct (finish_calls w (filepath_of file) r {| disk := d'; calls := cs |})
      as (tail & -> & _).
    cbn [calls]. apply in_or_app. left. invert_paths; by left.
  - destruct (finish w (filepath_of file) r {| disk := d'; calls := cs |}).1
      as [response|e] eqn:E.
    + left. exists response. split; [done|]. by apply finish_returned in E as (_ & ? & ?).
    + right. exists e. split; [done|]. by apply finish_raised.
Qed.

(** C2.  For every uploaded PDF, [ocr_with_ocrspace] is called if and only
    if the file was saved and the text of its pages, put together and
    stripped, has fewer than 100 characters; with 100 characters or more
    the call is never made. *)
Theorem ocr_called_iff_text_short
    (request : Request) (file : FileStorage) (d : filesystem) :
  reaches_pdf_branch request file ->
  existsb is_ocr_call (calls (serve w request d).2) = true
  <-> (save_result w (filepath_of file) (stream file) = Saved
       /\ exists t, local_text w (stream file) = Ret t
                    /\ (length (strip t) < 100)%nat).
Proof.
  intros Hreach.
  destruct (upload_file_pdf w request file d Hreach)
    as (r & cs & d' & tail & Hrun & -> & Htail & _).
  rewrite existsb_app.
  assert (existsb is_ocr_call tail = false) as -> by (by destruct Htail as [-> | ->]).
  rewrite orb_false_r. clear Htail. split.
  - intros Hcall. invert_paths; simpl in Hcall; try discriminate; eauto.
  - intros (Hsave & t & Ht & Hlen).
    invert_paths; same_results; simpl; solve [done | lia].
Qed.

Lemma pdf_run_response file filepath d r cs d' :
  pdf_run w file filepath d r cs d' ->
  (exists text summary,
      r = PDict [(lit "extracted_text", PStr text); (lit "summary", PStr summary)])
  \/ (exists msg, r = PDict [(lit "error", PStr msg)]).
Proof.
  intros H. invert_paths; unfold error_response, jsonify; eauto.
Qed.

(** The three refusals before the [try]: the answer, and a state that is
    left as it was. *)
Lemma serve_no_file_part request d :
  files_get (lit "file") (files request) = None ->
  serve w request d
  = (Ret (error_response (lit "No file part")), {| disk := d; calls := [] |}).
Proof. intros H. unfold serve, upload_file. by rewrite H. Qed.

Lemma serve_no_selected_file request file d :
  files_get (lit "file") (files request) = Some file ->
  filename file = [] ->
  serve w request d
  = (Ret (error_response (lit "No selected file")), {| disk := d; calls := [] |}).
Proof. intros H Hn. unfold serve, upload_file. by rewrite H, Hn. Qed.

Lemma serve_invalid_file_type request file d :
  files_get (lit "file") (files request) = Some file ->
  filename file <> [] ->
  endswith (filename file) (lit ".pdf") = false ->
  serve w request d
  = (Ret (error_response (lit "Invalid file type. Please upload a PDF.")),
     {| disk := d; calls := [] |}).
Proof.
  intros H Hn He. unfold serve, upload_file. apply eqb_false in Hn.
  rewrite H, Hn, He. by rewrite andb_false_r.
Qed.

(** Which of the four ways a request takes. *)
Lemma request_cases request :
  files_get (lit "file") (files request) = None
  \/ exists file, files_get (lit "file") (files request) = Some file
       /\ (filename file = []
           \/ (filename file <> [] /\ endswith (filename file) (lit ".pdf") = false)
           \/ reaches_pdf_branch request file).
Proof.
  destruct (files_get (lit "file") (files request)) as [file|] eqn:Hf; [|by left].
  right. exists file. split; [done|].
  destruct (decide (filename file = [])) as [|Hn]; [by left|]. right.
  destruct (endswith (filename file) (lit ".pdf")) eqn:He; [right|left]; done.
Qed.

(** X17.  Every request is answered with a JSON object that has the two
    string-valued keys [extracted_text] and [summary], or the single
    string-valued key [error], unless [os.remove] raises in the [finally]
    clause: that is the one way an exception leaves the handler. *)
Theorem response_has_one_of_two_shapes (request : Request) (d : filesystem) :
  (exists body,
      (serve w request d).1 = Ret body
      /\ ((exists text summary,
              body = PDict [(lit "extracted_text", PStr text); (lit "summary", PStr summary)])
          \/ (exists msg, body = PDict [(lit "error", PStr msg)])))
  \/ cleanup_failed w (serve w request d).
Proof.
  destruct (request_cases request) as [H | (file & Hf & [H | [[Hn He] | H]])].
  - rewrite (serve_no_file_part _ _ H). left. eexists. split; [done|]. right. by eexists.
  - rewrite (serve_no_selected_file _ _ _ Hf H). left. eexists. split; [done|].
    right. by eexists.
  - rewrite (serve_invalid_file_type _ _ _ Hf Hn He). left. eexists. split; [done|].
    right. by eexists.
  - destruct (upload_file_pdf w request file d H)
      as (r & cs & d' & tail & Hrun & _ & _ & [Hres|Hres]); [|by right].
    left. exists r. split; [done|]. by eapply pdf_run_response.
Qed.

(** C4, as the code has it.  The message of a request answered with an
    error is one of
    the four fixed messages of the handler, or the string
    [ocr_with_ocrspace] returned, which contains its marker, or the string
    [summarize_with_ai] returned, which contains its marker, or the text
    of an exception raised while the file was saved or its text was
    extracted. *)
Theorem error_message_origin
    (request : Request) (d : filesystem) (msg : pystr) (st' : State) :
  serve w request d = (Ret (error_response msg), st') ->
  In msg [ lit "No file part"; lit "No selected file";
           lit "Invalid file type. Please upload a PDF.";
           lit "Could not extract any text from this PDF." ]
  \/ (contains OCR_MARKER msg = true
      /\ exists path, In (OcrWithOcrspace path (Ret msg)) (calls st'))
  \/ (contains GEMINI_MARKER msg = true
      /\ exists text, In (SummarizeWithAi text (Ret msg)) (calls st'))
  \/ (exists file e,
        reaches_pdf_branch request file /\ msg = exn_str e
        /\ ((exists left_on_disk,
               save_result w (filepath_of file) (stream file)
               = SaveFailed e left_on_disk)
            \/ local_text w (stream file) = Raise e)).
Proof.
  intros Hs.
  destruct (request_cases request) as [H | (file & Hf & [H | [[Hn He] | H]])].
  - rewrite (serve_no_file_part _ _ H) in Hs. injection Hs as <- _.
    left. simpl. auto.
  - rewrite (serve_no_selected_file _ _ _ Hf H) in Hs. injection Hs as <- _.
    left. simpl. auto.
  - rewrite (serve_invalid_file_type _ _ _ Hf Hn He) in Hs. injection Hs as <- _.
    left. simpl. auto.
  - destruct (upload_file_pdf w request file d H)
      as (r & cs & d' & tail & Hrun & Hcalls & _ & Hres).
    rewrite Hs in Hcalls, Hres. cbn [fst snd] in Hcalls, Hres.
    destruct Hres as [Hres | (? & ? & Hres & _)]; [|discriminate Hres].
    injection Hres as <-. rewrite Hcalls.
    invert_paths;
      repeat match goal with
        | E : error_response _ = error_response _ |- _ => injection E as ->
        | E : jsonify _ = error_response _ |- _ => discriminate E
        end.
    + do 3 right. exists file, e. eauto 10.
    + do 3 right. exists file, e. eauto 10.
    + right. left. split; [done|]. eexists. apply in_or_app. left. simpl. eauto.
    + left. simpl. auto.
    + do 2 right. left. split; [done|]. eexists. apply in_or_app. left. simpl. eauto.
    + left. simpl. auto.
    + do 2 right. left. split; [done|]. eexists. apply in_or_app. left. simpl. eauto 10.
Qed.

(** C5.  A request without the field [file] is
    answered [No file part]; one whose file has an empty name is answered
    with an error ([No selected file]); one whose file has a name that is
    not empty and does not end in [.pdf] is answered [Invalid file type.
    Please upload a PDF.].  The three cases are the three checks of the
    handler, in their order.  In each the handler makes no call and leaves
    the disk alone: nothing is extracted or summarized. *)
Theorem refused_requests (request : Request) (d : filesystem) :
  (files_get (lit "file") (files request) = None ->
   serve w request d
   = (Ret (error_response (lit "No file part")), {| disk := d; calls := [] |}))
  /\ (forall file,
        files_get (lit "file") (files request) = Some file ->
        filename file = [] ->
        serve w request d
        = (Ret (error_response (lit "No selected file")), {| disk := d; calls := [] |}))
  /\ (forall file,
        files_get (lit "file") (files request) = Some file ->
        filename file <> [] ->
        endswith (filename file) (lit ".pdf") = false ->
        serve w request d
        = (Ret (error_response (lit "Invalid file type. Please upload a PDF.")),
           {| disk := d; calls := [] |})).
Proof.
  split; [apply serve_no_file_part|].
  split; intros file Hf.
  - by apply (serve_no_selected_file _ file).
  - by apply (serve_invalid_file_type _ file).
Qed.



(** C8.  The test on the extension tells upper case from lower case: a
    file whose name ends in [.PDF], [.Pdf] or another spelling that is not
    [.pdf] itself is answered [Invalid file type. Please upload a PDF.],
    and the handler makes no call and leaves the disk alone. *)
Theorem extension_check_is_case_sensitive
    (request : Request) (file : FileStorage) (stem ext : pystr) (d : filesystem) :
  files_get (lit "file") (files request) = Some file ->
  filename file = stem ++ ext ->
  pdf_extension_any_case ext = true ->
  ext <> lit ".pdf" ->
  serve w request d
  = (Ret (error_response (lit "Invalid file type. Please upload a PDF.")),
     {| disk := d; calls := [] |}).
Proof.
  intros Hf Hname Hext Hne. apply eqb_true in Hext.
  assert (length ext = length (lit ".pdf")) as Hlen
    by (rewrite <- Hext; by rewrite length_fmap).
  apply (serve_invalid_file_type _ file); [done| |].
  - rewrite Hname. intros [_ ->]%app_eq_nil. done.
  - rewrite Hname. by apply endswith_other_suffix.
Qed.



End Claims.

(** ** The claims at sample requests *)

Module Checks.
Import Samples.

#[local] Ltac evaluate :=
  vm_compute; first [ reflexivity | discriminate | intros E; discriminate E ].

(** The ways through [ocr_with_ocrspace]. *)

Example ocr_without_key :
  ocr_with_ocrspace
    {| OCR_SPACE_API_KEY := None; GEMINI_API_KEY := None; py_repr := fun _ => [];
       save_result := fun _ _ => Saved; fitz_document := fun _ => Ret [];
       requests_post := fun _ _ _ => answered PNone;
       generate_content_text := fun _ _ => Ret [] |}
    saved_report (lit "uploads/report.pdf")
  = Ret (lit "OCR.space Error: API key not found. Please create a .env file and add your OCR_SPACE_API_KEY.").
Proof. vm_compute. reflexivity. Qed.

Example ocr_network_failure :
  ocr_with_ocrspace (ocr_world (Raise (Exn RequestException (lit "timed out"))))
    saved_report (lit "uploads/report.pdf")
  = Ret (lit "OCR.space Error: Network request failed. Details: timed out").
Proof. vm_compute. reflexivity. Qed.

Example ocr_processing_error :
  ocr_with_ocrspace
    (ocr_world (answered (PDict [ (lit "IsErroredOnProcessing", PBool true);
                                  (lit "ErrorMessage", PList [PStr (lit "File too large")]) ])))
    saved_report (lit "uploads/report.pdf")
  = Ret (lit "OCR.space Error: File too large").
Proof. vm_compute. reflexivity. Qed.

(** [ErrorMessage] as a plain string: [[0]] takes its first character. *)
Example ocr_processing_error_message_is_a_string :
  ocr_with_ocrspace
    (ocr_world (answered (PDict [ (lit "IsErroredOnProcessing", PBool true);
                                  (lit "ErrorMessage", PStr (lit "Timed out")) ])))
    saved_report (lit "uploads/report.pdf")
  = Ret (lit "OCR.space Error: T").
Proof. vm_compute. reflexivity. Qed.

Example ocr_nothing_parsed :
  ocr_with_ocrspace (ocr_world (answered (PDict [ (lit "ParsedResults", PList []) ])))
    saved_report (lit "uploads/report.pdf")
  = Ret (lit "OCR.space Error: No text could be parsed.").
Proof. vm_compute. reflexivity. Qed.

(** A body that is not a JSON object: the [AttributeError] is caught. *)
Example ocr_body_is_a_list :
  ocr_with_ocrspace (ocr_world (answered (PList []))) saved_report (lit "uploads/report.pdf")
  = Ret (lit "OCR.space Error: An unexpected error occurred. Details: 'list' object has no attribute 'get'").
Proof. vm_compute. reflexivity. Qed.

(** A parsed result whose text is a number: the [TypeError] of [join] is
    caught. *)
Example ocr_parsed_text_is_a_number :
  ocr_with_ocrspace
    (ocr_world (answered (PDict [ (lit "ParsedResults",
                                   PList [ PDict [(lit "ParsedText", PStr (lit "a"))];
                                           PDict [(lit "ParsedText", PInt 7)] ]) ])))
    saved_report (lit "uploads/report.pdf")
  = Ret (lit "OCR.space Error: An unexpected error occurred. Details: sequence item 1: expected str instance, int found").
Proof. vm_compute. reflexivity. Qed.

Example ocr_file_is_missing :
  ocr_with_ocrspace (ocr_world (answered PNone)) ∅ (lit "uploads/report.pdf")
  = Ret (lit "OCR.space Error: An unexpected error occurred. Details: [Errno 2] No such file or directory: <repr>").
Proof. vm_compute. reflexivity. Qed.

Lemma ocr_success_sample gemini_key page text summary :
  ocr_success (world gemini_key page text summary) (stream report) text.
Proof.
  exists (lit "K1"), (ocr_response text), 
    [ (lit "ParsedResults", PList [PDict [(lit "ParsedText", PStr text)]]);
      (lit "IsErroredOnProcessing", PBool false) ],
    [PDict [(lit "ParsedText", PStr text)]], [text].
  repeat split; try reflexivity; try discriminate.
  - repeat constructor. by eexists.
  - simpl. by rewrite app_nil_r.
Qed.

(** The ways through the handler, one request each. *)

Example text_pdf_is_summarized :
  serve text_pdf (upload (lit "report.pdf")) other_upload
  = (Ret (jsonify [ (lit "extracted_text", PStr long_page);
                    (lit "summary", PStr (lit "All values are normal.")) ]),
     {| disk := other_upload;
        calls := [ FileSave (lit "uploads/report.pdf");
                   FitzOpen (lit "uploads/report.pdf");
                   SummarizeWithAi long_page (Ret (lit "All values are normal."));
                   OsRemove (lit "uploads/report.pdf") ] |}).
Proof. vm_compute. reflexivity. Qed.

Example scanned_pdf_goes_through_ocr :
  (serve scanned_pdf (upload (lit "report.pdf")) ∅).1
  = Ret (jsonify [ (lit "extracted_text", PStr (lit "Hb 13.5 g/dL"));
                   (lit "summary", PStr (lit "All values are normal.")) ]).
Proof. vm_compute. reflexivity. Qed.

Example broken_pdf_is_reported :
  serve broken_pdf (upload (lit "report.pdf")) ∅
  = (Ret (error_response (lit "Failed to open file")),
     {| disk := ∅;
        calls := [ FileSave (lit "uploads/report.pdf");
                   FitzOpen (lit "uploads/report.pdf");
                   OsRemove (lit "uploads/report.pdf") ] |}).
Proof. vm_compute. reflexivity. Qed.

Example absolute_name_is_saved_outside_the_folder :
  calls (serve broken_pdf (upload (lit "/tmp/report.pdf")) ∅).2
  = [ FileSave (lit "/tmp/report.pdf"); FitzOpen (lit "/tmp/report.pdf");
      OsRemove (lit "/tmp/report.pdf") ].
Proof. vm_compute. reflexivity. Qed.

(** C1, as the code has it, at a text PDF with another upload on disk: the
    handler returns and the path is free. *)
Lemma upload_leaves_no_file_witness :
  reaches_pdf_branch (upload (lit "report.pdf")) report
  /\ (serve text_pdf (upload (lit "report.pdf")) other_upload).1
     = Ret (jsonify [ (lit "extracted_text", PStr long_page);
                      (lit "summary", PStr (lit "All values are normal.")) ])
  /\ In (FileSave (path_join UPLOAD_FOLDER (filename report)))
       (calls (serve text_pdf (upload (lit "report.pdf")) other_upload).2)
  /\ ((exists response,
         (serve text_pdf (upload (lit "report.pdf")) other_upload).1 = Ret response
         /\ path_exists (disk (serve text_pdf (upload (lit "report.pdf")) other_upload).2)
              (path_join UPLOAD_FOLDER (filename report)) = false
         /\ disk (serve text_pdf (upload (lit "report.pdf")) other_upload).2
            !! path_join UPLOAD_FOLDER (filename report) = None)
      \/ (exists e,
            (serve text_pdf (upload (lit "report.pdf")) other_upload).1 = Raise e
            /\ In (OsRemove (path_join UPLOAD_FOLDER (filename report)))
                 (calls (serve text_pdf (upload (lit "report.pdf")) other_upload).2)
            /\ remove_result text_pdf
                 (disk (serve text_pdf (upload (lit "report.pdf")) other_upload).2)
                 (path_join UPLOAD_FOLDER (filename report)) = Raise e)).
Proof.
  split; [repeat split; evaluate|]. split; [vm_compute; reflexivity|].
  apply (upload_leaves_no_file text_pdf (upload (lit "report.pdf")) report other_upload).
  repeat split; evaluate.
Defined.

(** C1 as stated fails on an older upload of the same name that the process
    may overwrite, in a folder it may not remove from: [os.remove] raises,
    the request gets no answer, and the upload is still on the disk
    afterwards. *)
Lemma refused_removal_leaves_the_upload :
  reaches_pdf_branch (upload (lit "report.pdf")) report
  /\ (serve text_pdf (upload (lit "report.pdf")) no_removal).1
     = Raise (Exn OSError (lit "[Errno 13] Permission denied: 'uploads/report.pdf'"))
  /\ disk (serve text_pdf (upload (lit "report.pdf")) no_removal).2
     !! path_join UPLOAD_FOLDER (filename report) = Some (stream report)
  /\ path_exists (disk (serve text_pdf (upload (lit "report.pdf")) no_removal).2)
       (path_join UPLOAD_FOLDER (filename report)) = true.
Proof. repeat split; evaluate. Qed.

(** C3.  With a directory under the name of the upload, the save fails, the
    path exists, [os.remove] raises on it, and the exception leaves the
    handler: the request is not answered with a JSON object at all. *)
Lemma directory_in_the_way_is_not_answered :
  reaches_pdf_branch (upload (lit "report.pdf")) report
  /\ serve save_on_directory (upload (lit "report.pdf")) directory_in_the_way
     = (Raise (Exn OSError (lit "[Errno 21] Is a directory: 'uploads/report.pdf'")),
        {| disk := directory_in_the_way;
           calls := [ FileSave (lit "uploads/report.pdf");
                      OsRemove (lit "uploads/report.pdf") ] |}).
Proof. repeat split; evaluate. Qed.

(** The same with a name the client chose: the absolute path of a file the
    process may not touch.  The save fails, the path exists, [os.remove] is
    refused, and the request is not answered. *)
Example read_only_file_is_not_answered :
  serve save_on_read_only_file (upload (lit "/usr/share/doc/manual.pdf")) system_manual
  = (Raise (Exn OSError (lit "[Errno 13] Permission denied: '/usr/share/doc/manual.pdf'")),
     {| disk := system_manual;
        calls := [ FileSave (lit "/usr/share/doc/manual.pdf");
                   OsRemove (lit "/usr/share/doc/manual.pdf") ] |}).
Proof. vm_compute. reflexivity. Qed.

(** A link under the name of the upload: the handler writes through it,
    removes the link, and what was written stays where the link led. *)
Example link_is_removed_and_its_target_stays :
  (serve text_pdf (upload (lit "report.pdf")) link_in_the_folder).1
  = Ret (jsonify [ (lit "extracted_text", PStr long_page);
                   (lit "summary", PStr (lit "All values are normal.")) ])
  /\ path_exists (disk (serve text_pdf (upload (lit "report.pdf")) link_in_the_folder).2)
       (lit "uploads/report.pdf") = false
  /\ disk (serve text_pdf (upload (lit "report.pdf")) link_in_the_folder).2
     !! lit "archive/2019.pdf" = Some (stream report).
Proof. repeat split; evaluate. Qed.

(** A name with [..] in it: the upload replaces the file beside the folder,
    which is gone afterwards. *)
Example name_with_dots_reaches_outside_the_folder :
  report_beside_the_folder !! lit "report.pdf" = Some [x01; x02]
  /\ (serve text_pdf (upload (lit "../report.pdf")) report_beside_the_folder).1
     = Ret (jsonify [ (lit "extracted_text", PStr long_page);
                      (lit "summary", PStr (lit "All values are normal.")) ])
  /\ disk (serve text_pdf (upload (lit "../report.pdf")) report_beside_the_folder).2
     !! lit "report.pdf" = None.
Proof. repeat split; evaluate. Qed.

(** C2 at a scan: the pages give no text, and the OCR helper is called. *)
Lemma ocr_called_iff_text_short_witness :
  reaches_pdf_branch (upload (lit "report.pdf")) report
  /\ (existsb is_ocr_call (calls (serve scanned_pdf (upload (lit "report.pdf")) ∅).2) = true
      <-> (save_result scanned_pdf (path_join UPLOAD_FOLDER (filename report)) (stream report)
           = Saved
           /\ exists t, local_text scanned_pdf (stream report) = Ret t
                        /\ (length (strip t) < 100)%nat)).
Proof.
  split.
  - repeat split; evaluate.
  - apply (ocr_called_iff_text_short scanned_pdf (upload (lit "report.pdf")) report ∅).
    repeat split; evaluate.
Defined.

(** C4 as stated fails on a file of the wrong type: the message carries
    neither marker. *)
Lemma invalid_file_type_message_has_no_marker :
  (serve text_pdf (upload (lit "notes.txt")) ∅).1
  = Ret (error_response (lit "Invalid file type. Please upload a PDF."))
  /\ contains OCR_MARKER (lit "Invalid file type. Please upload a PDF.") = false
  /\ contains GEMINI_MARKER (lit "Invalid file type. Please upload a PDF.") = false.
Proof. repeat split; vm_compute; reflexivity. Qed.

(** C4, as the code has it, at a file PyMuPDF cannot open. *)
Lemma error_message_origin_witness :
  serve broken_pdf (upload (lit "report.pdf")) ∅
  = (Ret (error_response (lit "Failed to open file")),
     (serve broken_pdf (upload (lit "report.pdf")) ∅).2)
  /\ (In (lit "Failed to open file")
        [ lit "No file part"; lit "No selected file";
          lit "Invalid file type. Please upload a PDF.";
          lit "Could not extract any text from this PDF." ]
      \/ (contains OCR_MARKER (lit "Failed to open file") = true
          /\ exists path,
               In (OcrWithOcrspace path (Ret (lit "Failed to open file")))
                 (calls (serve broken_pdf (upload (lit "report.pdf")) ∅).2))
      \/ (contains GEMINI_MARKER (lit "Failed to open file") = true
          /\ exists text,
               In (SummarizeWithAi text (Ret (lit "Failed to open file")))
                 (calls (serve broken_pdf (upload (lit "report.pdf")) ∅).2))
      \/ (exists file e,
            reaches_pdf_branch (upload (lit "report.pdf")) file
            /\ lit "Failed to open file" = exn_str e
            /\ ((exists left_on_disk,
                   save_result broken_pdf (path_join UPLOAD_FOLDER (filename file))
                     (stream file)
                   = SaveFailed e left_on_disk)
                \/ local_text broken_pdf (stream file) = Raise e))).
Proof.
  split.
  - vm_compute. reflexivity.
  - apply (error_message_origin broken_pdf (upload (lit "report.pdf")) ∅).
    vm_compute. reflexivity.
Defined.

(** The check on the empty name comes before the one on the extension. *)
Example empty_name_is_answered_no_selected_file :
  endswith (filename {| filename := []; stream := [] |}) (lit ".pdf") = false
  /\ (serve text_pdf (upload []) ∅).1 = Ret (error_response (lit "No selected file")).
Proof. repeat split; evaluate. Qed.

(** C5 at one request of each kind. *)
Lemma refused_requests_witness :
  serve text_pdf no_file_part other_upload
  = (Ret (error_response (lit "No file part")), {| disk := other_upload; calls := [] |})
  /\ serve text_pdf (upload []) other_upload
     = (Ret (error_response (lit "No selected file")),
        {| disk := other_upload; calls := [] |})
  /\ serve text_pdf (upload (lit "notes.txt")) other_upload
     = (Ret (error_response (lit "Invalid file type. Please upload a PDF.")),
        {| disk := other_upload; calls := [] |}).
Proof.
  split; [|split].
  - apply (refused_requests text_pdf no_file_part other_upload). reflexivity.
  - apply (refused_requests text_pdf (upload []) other_upload)
      with (file := {| filename := []; stream := [x25; x50; x44; x46] |});
      reflexivity.
  - apply (refused_requests text_pdf (upload (lit "notes.txt")) other_upload)
      with (file := {| filename := lit "notes.txt"; stream := [x25; x50; x44; x46] |});
      evaluate.
Defined.


(** C7 at a scan OCR.space parses and a text Gemini summarizes. *)
Lemma helpers_return_service_text_witness :
  ocr_with_ocrspace scanned_pdf {[ lit "uploads/report.pdf" := stream report ]}
    (lit "uploads/report.pdf")
  = Ret (lit "Hb 13.5 g/dL")
  /\ summarize_with_ai scanned_pdf (lit "Hb 13.5 g/dL") = Ret (lit "All values are normal.").
Proof.
  split.
  - apply (helpers_return_marked_string_or_service_text scanned_pdf
             {[ lit "uploads/report.pdf" := stream report ]}
             (lit "uploads/report.pdf") (lit "Hb 13.5 g/dL"))
      with (f := stream report).
    + vm_compute. reflexivity.
    + apply ocr_success_sample.
  - apply (helpers_return_marked_string_or_service_text scanned_pdf ∅ [] (lit "Hb 13.5 g/dL")).
    split; vm_compute; reflexivity.
Defined.

(** C8 at [report.PDF]. *)
Lemma extension_check_is_case_sensitive_witness :
  pdf_extension_any_case (lit ".PDF") = true
  /\ serve text_pdf (upload (lit "report.PDF")) other_upload
     = (Ret (error_response (lit "Invalid file type. Please upload a PDF.")),
        {| disk := other_upload; calls := [] |}).
Proof.
  split; [vm_compute; reflexivity|].
  apply (extension_check_is_case_sensitive text_pdf (upload (lit "report.PDF"))
           {| filename := lit "report.PDF"; stream := [x25; x50; x44; x46] |}
           (lit "report") (lit ".PDF") other_upload); evaluate.
Defined.



End Checks.


(** ** More facts about the handler *)

Section StripFacts.
Implicit Types s : pystr.

Lemma lstrip_length s : (length (lstrip s) <= length s)%nat.
Proof.
  induction s as [|c s IH]; simpl; [lia|].
  destruct (isspace c); simpl; lia.
Qed.

(** Stripping never makes a string longer. *)
Lemma strip_length s : (length (strip s) <= length s)%nat.
Proof.
  unfold strip, rstrip. rewrite length_rev.
  etransitivity; [apply lstrip_length|]. rewrite length_rev. apply lstrip_length.
Qed.

Lemma lstrip_blank s : forallb isspace s = true -> lstrip s = [].
Proof.
  induction s as [|c s IH]; simpl; [done|].
  intros [Hc Hs]%andb_true_iff. rewrite Hc. by apply IH.
Qed.

(** White space only strips to the empty string. *)
Lemma strip_blank s : forallb isspace s = true -> strip s = [].
Proof. intros H. unfold strip, rstrip. by rewrite (lstrip_blank _ H). Qed.

End StripFacts.



(** ** More about [ocr_with_ocrspace] *)

Section OcrProperties.
Context (w : World).

Lemma ocr_request_answered d file_path body :
  ocr_answered w d file_path body ->
  key_missing (OCR_SPACE_API_KEY w) = false
  /\ ocr_request w d file_path = read_ocr_result w body.
Proof.
  intros (f & key & r & Hf & Hkey & Hne & Hr & Hs & Hj).
  split; [apply key_present; eauto|].
  unfold ocr_request, open_rb. rewrite Hf, Hkey. simpl. rewrite Hr. simpl.
  by rewrite Hs, Hj.
Qed.

Lemma ocr_with_ocrspace_answered d file_path body :
  ocr_answered w d file_path body ->
  ocr_with_ocrspace w d file_path
  = match read_ocr_result w body with
    | Ret s => Ret s
    | Raise e =>
        if is_RequestException e then
          Ret (lit "OCR.space Error: Network request failed. Details: " ++ exn_str e)
        else
          Ret (lit "OCR.space Error: An unexpected error occurred. Details: " ++ exn_str e)
    end.
Proof.
  intros [Hkey E]%ocr_request_answered. unfold ocr_with_ocrspace.
  rewrite Hkey, E. by destruct (read_ocr_result w body).
Qed.

Lemma comprehension_get_raise items e :
  Py.comprehension (fun res => Py.get res (lit "ParsedText") (PStr [])) items = Raise e ->
  raised_by_python e = true.
Proof.
  induction items as [|item items IH]; simpl; [done|].
  destruct item; simpl; try by intros [= <-].
  destruct (Py.comprehension _ items); simpl; [done|]. intros [= <-]. by apply IH.
Qed.

Lemma join_from_raise i l e :
  Py.join_from i l = Raise e -> raised_by_python e = true.
Proof.
  revert i. induction l as [|v l IH]; intros i; simpl; [done|].
  destruct v; try by intros [= <-].
  destruct (Py.join_from (S i) l) eqn:E; simpl; [done|].
  intros [= <-]. by eapply IH.
Qed.

Lemma read_ocr_result_raise body e :
  read_ocr_result w body = Raise e -> raised_by_python e = true.
Proof.
  unfold read_ocr_result.
  destruct body as [| | | | | |dd]; try by intros [= <-].
  simpl.
  destruct (Py.truthy (default PNone (Py.dict_lookup (lit "IsErroredOnProcessing") dd))).
  { destruct (default _ (Py.dict_lookup (lit "ErrorMessage") dd)) as [| | | |[|]|[|]|];
      simpl; by intros [= <-]. }
  destruct (Py.dict_lookup (lit "ParsedResults") dd) as [parsed|]; simpl; [|done].
  destruct (Py.truthy parsed); [|done].
  destruct parsed as [| | | |t|items|keys]; simpl; try by intros [= <-].
  - destruct (Py.comprehension _ _) eqn:E; simpl.
    + apply join_from_raise.
    + intros [= <-]. by eapply comprehension_get_raise.
  - destruct (Py.comprehension _ _) eqn:E; simpl.
    + apply join_from_raise.
    + intros [= <-]. by eapply comprehension_get_raise.
  - destruct (Py.comprehension _ _) eqn:E; simpl.
    + apply join_from_raise.
    + intros [= <-]. by eapply comprehension_get_raise.
Qed.

(** X3.  A processing error that OCR.space reports wins over whatever it
    parsed: when the decoded body says [IsErroredOnProcessing], the helper
    returns a string that starts with its marker, whatever [ParsedResults]
    holds.
    Without an [ErrorMessage] the string says [Unknown error]; with a list
    of messages it quotes the first. *)
Theorem processing_error_wins_over_parsed_text
    (d : filesystem) (file_path : pystr) (body : list (pystr * pyval)) :
  ocr_answered w d file_path (PDict body) ->
  Py.truthy (default PNone (Py.dict_lookup (lit "IsErroredOnProcessing") body)) = true ->
  (exists s, ocr_with_ocrspace w d file_path = Ret s /\ startswith s OCR_MARKER = true)
  /\ (Py.dict_lookup (lit "ErrorMessage") body = None ->
      ocr_with_ocrspace w d file_path = Ret (lit "OCR.space Error: Unknown error"))
  /\ (forall m rest,
        Py.dict_lookup (lit "ErrorMessage") body = Some (PList (PStr m :: rest)) ->
        ocr_with_ocrspace w d file_path = Ret (lit "OCR.space Error: " ++ m)).
Proof.
  intros Hans Herr. rewrite (ocr_with_ocrspace_answered _ _ _ Hans).
  unfold read_ocr_result. simpl. rewrite Herr. split; [|split].
  - destruct (Py.item0 _) as [first|e]; simpl; [by eauto|].
    destruct (is_RequestException e); eauto.
  - by intros ->.
  - by intros m rest ->.
Qed.

(** X4.  Once OCR.space has answered, whatever goes wrong while the body is
    read (a body that is not an object, an empty [ErrorMessage], results
    that are not objects, a text that is not a string) is an exception of
    Python itself, and it is reported as an unexpected error with its text,
    never as a network failure. *)
Theorem malformed_answer_is_an_unexpected_error
    (d : filesystem) (file_path : pystr) (body : pyval) (e : exn) :
  ocr_answered w d file_path body ->
  ocr_request w d file_path = Raise e ->
  raised_by_python e = true
  /\ is_RequestException e = false
  /\ ocr_with_ocrspace w d file_path
     = Ret (lit "OCR.space Error: An unexpected error occurred. Details: " ++ exn_str e).
Proof.
  intros Hans Hraise.
  destruct (ocr_request_answered _ _ _ Hans) as [Hkey E]. rewrite E in Hraise.
  pose proof (read_ocr_result_raise _ _ Hraise) as Hpy.
  assert (is_RequestException e = false) as Hreq.
  { destruct e as [[] msg]; done. }
  repeat split; [done..|].
  by rewrite (ocr_with_ocrspace_answered _ _ _ Hans), Hraise, Hreq.
Qed.

(** X5.  An answer that reports no error and lists no parsed result (no
    [ParsedResults] at all, [null], or an empty list) is turned into the
    error string [No text could be parsed]. *)
Theorem answer_without_results_is_an_error
    (d : filesystem) (file_path : pystr) (body : list (pystr * pyval)) :
  ocr_answered w d file_path (PDict body) ->
  Py.truthy (default PNone (Py.dict_lookup (lit "IsErroredOnProcessing") body)) = false ->
  Py.truthy (default PNone (Py.dict_lookup (lit "ParsedResults") body)) = false ->
  ocr_with_ocrspace w d file_path = Ret (lit "OCR.space Error: No text could be parsed.").
Proof.
  intros Hans Herr Hparsed. rewrite (ocr_with_ocrspace_answered _ _ _ Hans).
  unfold read_ocr_result. simpl. by rewrite Herr, Hparsed.
Qed.

(** Of a file it can read, the helper uses the contents and nothing else. *)
Lemma ocr_with_ocrspace_disk d1 d2 file_path f :
  d1 !! file_path = Some f -> d2 !! file_path = Some f ->
  ocr_with_ocrspace w d1 file_path = ocr_with_ocrspace w d2 file_path.
Proof.
  intros H1 H2. unfold ocr_with_ocrspace, ocr_request, open_rb. by rewrite H1, H2.
Qed.

End OcrProperties.


(** ** More about [upload_file] *)

(** The calls of a saved upload, between [FitzOpen] and [OsRemove]. *)
Ltac protocol :=
  first
    [ exists [], []; split; [reflexivity|]; split; [by left | by left]
    | eexists (cons _ (cons _ nil)), nil; split; [reflexivity|];
      split; [right; by eexists | by left]
    | eexists nil, (cons _ nil); split; [reflexivity|];
      split; [by left | right; by eexists _, _]
    | eexists (cons _ (cons _ nil)), (cons _ nil); split; [reflexivity|];
      split; [right; by eexists | right; by eexists _, _] ].

Section UploadProperties.
Context (w : World).

Local Abbreviation filepath_of file := (path_join UPLOAD_FOLDER (filename file)).

(** X9.  The calls of a request whose file was saved follow one order: the
    file is saved, PyMuPDF opens it, [ocr_with_ocrspace] is called at most
    once (after the note on the console), [summarize_with_ai] is called at
    most once and after it, and the last call removes the file. *)
Theorem calls_follow_one_order (request : Request) (file : FileStorage) (d : filesystem) :
  reaches_pdf_branch request file ->
  save_result w (filepath_of file) (stream file) = Saved ->
  exists ocr summarize,
    calls (serve w request d).2
    = [FileSave (filepath_of file); FitzOpen (filepath_of file)]
      ++ ocr ++ summarize ++ [OsRemove (filepath_of file)]
    /\ ocr_calls (filepath_of file) ocr
    /\ summarize_calls summarize.
Proof.
  intros Hreach Hsave.
  destruct (upload_file_saved w request file d Hreach Hsave) as (r & cs & Hrun & _ & -> & _).
  invert_paths; try congruence; protocol.
Qed.

(** X7.  A PDF whose text, stripped, has 100 characters or more is
    summarized as it is: the calls are the save, the opening,
    [summarize_with_ai] on the text of the pages, not stripped, and the
    removal; the OCR helper is not called; and the answer carries that text
    and the summary, or the summary under [error] when it has the marker
    (if [os.remove] does not raise, which leaves the request without an
    answer). *)
Theorem text_pdf_is_summarized_unstripped
    (request : Request) (file : FileStorage) (d : filesystem) (t : pystr) :
  reaches_pdf_branch request file ->
  save_result w (filepath_of file) (stream file) = Saved ->
  local_text w (stream file) = Ret t ->
  (100 <= length (strip t))%nat ->
  exists summary,
    summarize_with_ai w t = Ret summary
    /\ calls (serve w request d).2
       = [ FileSave (filepath_of file); FitzOpen (filepath_of file);
           SummarizeWithAi t (Ret summary); OsRemove (filepath_of file) ]
    /\ ((serve w request d).1
        = Ret (if contains GEMINI_MARKER summary then error_response summary
               else jsonify [(lit "extracted_text", PStr t); (lit "summary", PStr summary)])
        \/ cleanup_failed w (serve w request d)).
Proof.
  intros Hreach Hsave Ht Hlen.
  destruct (upload_file_saved w request file d Hreach Hsave)
    as (r & cs & Hrun & _ & -> & Hres).
  invert_paths; same_results; try lia.
  - match goal with H : strip _ = [] |- _ => rewrite H in Hlen; simpl in Hlen; lia end.
  - eexists. split; [eassumption|]. split; [reflexivity|].
    match goal with H : contains _ _ = true |- _ => by rewrite H end.
  - eexists. split; [eassumption|]. split; [reflexivity|].
    match goal with H : contains _ _ = false |- _ => by rewrite H end.
Qed.

(** X6.  A PDF whose pages give fewer than 100 characters, or white space
    only however much of it, is treated as a scan: the OCR helper is
    called. *)
Theorem short_or_blank_text_goes_to_ocr
    (request : Request) (file : FileStorage) (d : filesystem) (t : pystr) :
  reaches_pdf_branch request file ->
  save_result w (filepath_of file) (stream file) = Saved ->
  local_text w (stream file) = Ret t ->
  (length t < 100)%nat \/ forallb isspace t = true ->
  exists returned,
    In (OcrWithOcrspace (filepath_of file) (Ret returned)) (calls (serve w request d).2).
Proof.
  intros Hreach Hsave Ht Hshort.
  assert (length (strip t) < 100)%nat as Hlen.
  { destruct Hshort as [H|H].
    - pose proof (strip_length t). lia.
    - rewrite (strip_blank _ H). simpl. lia. }
  destruct (upload_file_saved w request file d Hreach Hsave) as (r & cs & Hrun & _ & -> & _).
  invert_paths; same_results; try lia; eexists; simpl; eauto 10.
Qed.

(** X8.  What a successful answer guarantees: its text is not blank, its
    summary is what [summarize_with_ai] returned for that very text and has
    no [Gemini Error:] in it, every OCR call of the request returned that
    text, which then has no [OCR.space Error:] in it, and the path of the
    upload does not exist on the disk any more. *)
Theorem successful_answer_is_consistent
    (request : Request) (d : filesystem) (text summary : pystr) (st' : State) :
  serve w request d
  = (Ret (PDict [(lit "extracted_text", PStr text); (lit "summary", PStr summary)]), st') ->
  strip text <> []
  /\ summarize_with_ai w text = Ret summary
  /\ contains GEMINI_MARKER summary = false
  /\ In (SummarizeWithAi text (Ret summary)) (calls st')
  /\ (forall path returned,
        In (OcrWithOcrspace path returned) (calls st') ->
        returned = Ret text /\ contains OCR_MARKER text = false)
  /\ exists file,
       reaches_pdf_branch request file
       /\ path_exists (disk st') (filepath_of file) = false
       /\ disk st' !! filepath_of file = None.
Proof.
  intros Hs.
  destruct (request_cases request) as [H | (file & Hf & [H | [[Hn He] | H]])].
  - rewrite (serve_no_file_part _ _ _ H) in Hs. discriminate Hs.
  - rewrite (serve_no_selected_file _ _ _ _ Hf H) in Hs. discriminate Hs.
  - rewrite (serve_invalid_file_type _ _ _ _ Hf Hn He) in Hs. discriminate Hs.
  - destruct (serve_pdf w request file d H) as (r & cs & d' & Hrun & Hfin).
    rewrite Hs in Hfin.
    pose proof (finish_returned w (filepath_of file) r {| disk := d'; calls := cs |}
                  (PDict [(lit "extracted_text", PStr text); (lit "summary", PStr summary)]))
      as Hret.
    destruct (finish_calls w (filepath_of file) r {| disk := d'; calls := cs |})
      as (tail & Hcalls & Ht).
    rewrite <- Hfin in Hret, Hcalls. cbn [fst snd calls] in Hret, Hcalls.
    destruct (Hret eq_refl) as (Hr & Hgone & Hnone). subst r. rewrite Hcalls.
    clear Hret Hfin Hs Hcalls.
    invert_paths;
      repeat match goal with
        | E : error_response _ = PDict _ |- _ => discriminate E
        | E : jsonify _ = PDict _ |- _ => injection E as -> ->
        end;
      (split; [done|]; split; [done|]; split; [done|]; split; [|split]).
    all: first
      [ solve [simpl; tauto]
      | intros path returned Hin; simpl in Hin;
        repeat match goal with
          | D : _ \/ _ |- _ => destruct D
          | D : False |- _ => destruct D
          | D : OcrWithOcrspace _ _ = OcrWithOcrspace _ _ |- _ => injection D as <- <-
          | D : _ = _ :> call |- _ => discriminate D
          end; done
      | by exists file ].
Qed.

(** X10.  When saving the upload fails, nothing is opened, recognized or
    summarized: the one call that may follow is [os.remove], made when the
    path exists after the failed save (a partly written file, or something
    that was there before the request).  The answer is the text of the
    exception of the save under [error], and the path does not exist any
    more, unless [os.remove] raises, which leaves the request without an
    answer. *)
Theorem failed_save_is_reported_and_cleaned_up
    (request : Request) (file : FileStorage) (d : filesystem)
    (e : exn) (left_on_disk : option (list byte)) :
  reaches_pdf_branch request file ->
  save_result w (filepath_of file) (stream file) = SaveFailed e left_on_disk ->
  let after_save :=
    match left_on_disk with Some b => <[filepath_of file := b]> d | None => d end in
  calls (serve w request d).2
  = FileSave (filepath_of file)
    :: (if path_exists after_save (filepath_of file)
        then [OsRemove (filepath_of file)] else [])
  /\ (((serve w request d).1 = Ret (error_response (exn_str e))
       /\ path_exists (disk (serve w request d).2) (filepath_of file) = false)
      \/ cleanup_failed w (serve w request d)).
Proof.
  intros Hreach Hsave after_save.
  destruct (serve_pdf w request file d Hreach) as (r & cs & d' & Hrun & ->).
  inversion Hrun; subst; try congruence.
  match goal with H : save_result _ _ _ = SaveFailed _ _ |- _ =>
    rewrite Hsave in H; injection H as <- <- end.
  fold after_save. split.
  - unfold finish. cbn [disk calls].
    destruct (path_exists after_save (filepath_of file)); [|done].
    by destruct (remove_result w after_save (filepath_of file)).
  - destruct (finish_outcome w (filepath_of file) (error_response (exn_str e))
                {| disk := after_save; calls := [FileSave (filepath_of file)] |})
      as [Hres|Hres]; [left | by right].
    split; [done|]. by apply finish_returned in Hres as (_ & ? & _).
Qed.

(** X11.  When the file was saved but PyMuPDF raises while opening it or
    reading its pages, the calls are the save, the opening and the removal,
    and neither helper is called; the answer is the text of the exception as
    it is, under [error], and the path does not exist any more, unless
    [os.remove] raises, which leaves the request without an answer. *)
Theorem failed_extraction_is_reported_and_cleaned_up
    (request : Request) (file : FileStorage) (d : filesystem) (e : exn) :
  reaches_pdf_branch request file ->
  save_result w (filepath_of file) (stream file) = Saved ->
  local_text w (stream file) = Raise e ->
  calls (serve w request d).2
  = [ FileSave (filepath_of file); FitzOpen (filepath_of file);
      OsRemove (filepath_of file) ]
  /\ (((serve w request d).1 = Ret (error_response (exn_str e))
       /\ path_exists (disk (serve w request d).2) (filepath_of file) = false)
      \/ cleanup_failed w (serve w request d)).
Proof.
  intros Hreach Hsave Ht.
  destruct (upload_file_saved w request file d Hreach Hsave)
    as (r & cs & Hrun & Hfin & -> & Hres).
  assert (r = error_response (exn_str e) /\ cs = [FileSave (filepath_of file);
                                                  FitzOpen (filepath_of file)])
    as [-> ->].
  { clear Hfin Hres. invert_paths; try congruence. split; [congruence|done]. }
  split; [done|].
  destruct Hres as [Hres|Hres]; [left | by right]. split; [done|].
  rewrite Hfin in Hres |- *. by apply finish_returned in Hres as (_ & ? & _).
Qed.

Lemma comprehension_first_raise {A B} (f : A -> pyres B) good x rest e :
  Forall (fun a => exists b, f a = Ret b) good ->
  f x = Raise e ->
  Py.comprehension f (good ++ x :: rest) = Raise e.
Proof.
  intros Hgood Hx. induction Hgood as [|a good [b Hb] _ IH]; simpl.
  - by rewrite Hx.
  - by rewrite Hb, IH.
Qed.

(** X16.  Pages are read in order and the first page whose text cannot be
    read ends the extraction: its exception is the one the client gets (if
    [os.remove] does not raise afterwards, which leaves the request without
    an answer), the pages after it are not looked at, and neither helper is
    called. *)
Theorem first_unreadable_page_is_reported
    (request : Request) (file : FileStorage) (d : filesystem)
    (good : list Page) (page : Page) (rest : list Page) (e : exn) :
  reaches_pdf_branch request file ->
  save_result w (filepath_of file) (stream file) = Saved ->
  fitz_document w (stream file) = Ret (good ++ page :: rest) ->
  Forall (fun p => exists t, get_text p = Ret t) good ->
  get_text page = Raise e ->
  ((serve w request d).1 = Ret (error_response (exn_str e))
   \/ cleanup_failed w (serve w request d))
  /\ existsb is_ocr_call (calls (serve w request d).2) = false
  /\ existsb is_summarize_call (calls (serve w request d).2) = false.
Proof.
  intros Hreach Hsave Hdoc Hgood Hpage.
  assert (local_text w (stream file) = Raise e) as Ht.
  { unfold local_text. rewrite Hdoc. simpl.
    by rewrite (comprehension_first_raise get_text good page rest e). }
  destruct (upload_file_saved w request file d Hreach Hsave)
    as (r & cs & Hrun & _ & -> & Hres).
  assert (r = error_response (exn_str e) /\ cs = [FileSave (filepath_of file);
                                                  FitzOpen (filepath_of file)])
    as [-> ->].
  { clear Hres. invert_paths; try congruence. split; [congruence|done]. }
  split; [|done]. destruct Hres as [Hres|Hres]; [by left | by right].
Qed.


Lemma files_get_skip before file after :
  (forall k f, In (k, f) before -> k <> lit "file") ->
  files_get (lit "file") (before ++ (lit "file", file) :: after) = Some file.
Proof.
  induction before as [|[k f] before IH]; intros Hother; cbn [app files_get].
  - by rewrite (proj2 (eqb_true _ _) eq_refl).
  - assert (PyStr.eqb (lit "file") k = false) as ->.
    { apply eqb_false. intros <-. apply (Hother (lit "file") f); [by left | done]. }
    apply IH. intros k' f' Hin. apply (Hother k' f'). by right.
Qed.

(** X13.  Only the first part named [file] counts: parts under other names
    before it and every part after it, a second [file] among them, change
    neither the answer nor what the handler does. *)
Theorem first_file_part_decides
    (before after : list (pystr * FileStorage)) (file : FileStorage) (d : filesystem) :
  (forall k f, In (k, f) before -> k <> lit "file") ->
  serve w {| files := before ++ (lit "file", file) :: after |} d
  = serve w {| files := [(lit "file", file)] |} d.
Proof.
  intros Hother. unfold serve, upload_file. cbn [files].
  rewrite (files_get_skip before file after Hother).
  change [(lit "file", file)] with ([] ++ [(lit "file", file)]).
  by rewrite (files_get_skip [] file []) by (by intros ? ? []).
Qed.

(** X14.  What OCR.space is asked about is the upload itself: every OCR
    call of a request is made on the path of the upload, and it returns
    what the helper returns on a disk that holds the uploaded bytes under
    that path and nothing else. *)
Theorem ocr_is_asked_about_the_upload
    (request : Request) (file : FileStorage) (d : filesystem)
    (path : pystr) (returned : pyres pystr) :
  reaches_pdf_branch request file ->
  In (OcrWithOcrspace path returned) (calls (serve w request d).2) ->
  path = filepath_of file
  /\ returned = ocr_with_ocrspace w {[ filepath_of file := stream file ]} (filepath_of file).
Proof.
  intros Hreach.
  destruct (upload_file_pdf w request file d Hreach)
    as (r & cs & d' & tail & Hrun & -> & Htail & _).
  intros Hin.
  apply in_app_or in Hin as [Hin|Hin]; [|by destruct Htail as [-> | ->]; [|destruct Hin]].
  clear Htail.
  assert (forall s, ocr_with_ocrspace w (<[filepath_of file := stream file]> d)
                      (filepath_of file) = Ret s ->
                    Ret s = ocr_with_ocrspace w {[ filepath_of file := stream file ]}
                              (filepath_of file)) as Hsame.
  { intros s <-. apply (ocr_with_ocrspace_disk _ _ _ _ (stream file)).
    - apply disk_lookup_insert.
    - apply disk_lookup_singleton. }
  invert_paths; simpl in Hin;
    repeat match goal with
      | D : _ \/ _ |- _ => destruct D
      | D : False |- _ => destruct D
      | D : OcrWithOcrspace _ _ = OcrWithOcrspace _ _ |- _ => injection D as <- <-
      | D : _ = _ :> call |- _ => discriminate D
      end; split; auto.
Qed.

Lemma ocr_with_document document d file_path :
  ocr_with_ocrspace (with_document w document) d file_path = ocr_with_ocrspace w d file_path.
Proof. reflexivity. Qed.

Lemma save_with_document document :
  save_result (with_document w document) = save_result w.
Proof. reflexivity. Qed.

Lemma summarize_with_document document text :
  summarize_with_ai (with_document w document) text = summarize_with_ai w text.
Proof. reflexivity. Qed.

(** X15.  The text of the pages of a scan is thrown away: when it is
    shorter than the threshold, the answer and everything the handler does
    are the same whatever that text is, empty or not. *)
Theorem short_local_text_is_discarded
    (document1 document2 : list byte -> pyres (list Page))
    (request : Request) (file : FileStorage) (d : filesystem) (t1 t2 : pystr) :
  reaches_pdf_branch request file ->
  save_result w (filepath_of file) (stream file) = Saved ->
  local_text (with_document w document1) (stream file) = Ret t1 ->
  (length (strip t1) < 100)%nat ->
  local_text (with_document w document2) (stream file) = Ret t2 ->
  (length (strip t2) < 100)%nat ->
  serve (with_document w document1) request d = serve (with_document w document2) request d.
Proof.
  intros Hreach Hsave Ht1 Hlen1 Ht2 Hlen2.
  destruct (upload_file_saved (with_document w document1) request file d Hreach Hsave)
    as (r1 & cs1 & Hrun1 & -> & _).
  destruct (upload_file_saved (with_document w document2) request file d Hreach Hsave)
    as (r2 & cs2 & Hrun2 & -> & _).
  change (finish (with_document w document1)) with (finish w).
  change (finish (with_document w document2)) with (finish w).
  assert (r1 = r2 /\ cs1 = cs2) as [-> ->]; [|done].
  invert_paths;
    rewrite ?save_with_document, ?ocr_with_document, ?summarize_with_document in *;
    same_results; solve [ lia | done | split; congruence ].
Qed.

Lemma ocr_key_missing_message d file_path :
  key_missing (OCR_SPACE_API_KEY w) = true ->
  ocr_with_ocrspace w d file_path = Ret OCR_KEY_MISSING.
Proof. intros H. unfold ocr_with_ocrspace. by rewrite H. Qed.

Lemma gemini_key_missing_message text :
  key_missing (GEMINI_API_KEY w) = true ->
  summarize_with_ai w text = Ret GEMINI_KEY_MISSING.
Proof. intros H. unfold summarize_with_ai. by rewrite H. Qed.

(** X1.  Without an OCR.space key, unset or empty, a scan cannot be read:
    a request that gets as far as calling the OCR helper is answered with
    the fixed message about the missing key under [error] (if [os.remove]
    does not raise afterwards, which leaves the request without an answer),
    and the summarizer is not called. *)
Theorem missing_ocr_key_is_reported (request : Request) (d : filesystem) :
  key_missing (OCR_SPACE_API_KEY w) = true ->
  existsb is_ocr_call (calls (serve w request d).2) = true ->
  ((serve w request d).1 = Ret (error_response OCR_KEY_MISSING)
   \/ cleanup_failed w (serve w request d))
  /\ existsb is_summarize_call (calls (serve w request d).2) = false.
Proof.
  intros Hkey.
  destruct (request_cases request) as [H | (file & Hf & [H | [[Hn He] | H]])].
  - by rewrite (serve_no_file_part _ _ _ H).
  - by rewrite (serve_no_selected_file _ _ _ _ Hf H).
  - by rewrite (serve_invalid_file_type _ _ _ _ Hf Hn He).
  - destruct (upload_file_pdf w request file d H)
      as (r & cs & d' & tail & Hrun & -> & Ht & Hres).
    rewrite !existsb_app.
    assert (existsb is_ocr_call tail = false) as -> by (by destruct Ht as [-> | ->]).
    assert (existsb is_summarize_call tail = false) as -> by (by destruct Ht as [-> | ->]).
    rewrite !orb_false_r. clear Ht. intros Hcall.
    assert (r = error_response OCR_KEY_MISSING /\ existsb is_summarize_call cs = false)
      as [-> Hno].
    { clear Hres.
      invert_paths; simpl in Hcall; try discriminate;
        match goal with
        | E : ocr_with_ocrspace w ?dd ?pp = Ret ?s |- _ =>
            rewrite (ocr_key_missing_message dd pp Hkey) in E; injection E as <-
        end;
        first [ done
              | match goal with
                | C : contains _ _ = false |- _ => vm_compute in C; discriminate C
                end ]. }
    split; [|done]. destruct Hres as [Hres|Hres]; [by left | by right].
Qed.

(** X2.  A Gemini key that is set to the empty string counts as missing,
    like one that is not set: a request that gets as far as calling the
    summarizer is answered with the fixed message about the missing key
    under [error], whatever text was extracted (if [os.remove] does not
    raise afterwards, which leaves the request without an answer). *)
Theorem empty_gemini_key_counts_as_missing (request : Request) (d : filesystem) :
  key_missing (GEMINI_API_KEY w) = true ->
  existsb is_summarize_call (calls (serve w request d).2) = true ->
  (serve w request d).1 = Ret (error_response GEMINI_KEY_MISSING)
  \/ cleanup_failed w (serve w request d).
Proof.
  intros Hkey.
  destruct (request_cases request) as [H | (file & Hf & [H | [[Hn He] | H]])].
  - by rewrite (serve_no_file_part _ _ _ H).
  - by rewrite (serve_no_selected_file _ _ _ _ Hf H).
  - by rewrite (serve_invalid_file_type _ _ _ _ Hf Hn He).
  - destruct (upload_file_pdf w request file d H)
      as (r & cs & d' & tail & Hrun & -> & Ht & Hres).
    rewrite existsb_app.
    assert (existsb is_summarize_call tail = false) as -> by (by destruct Ht as [-> | ->]).
    rewrite orb_false_r. clear Ht. intros Hcall.
    destruct Hres as [-> | Hres]; [left | by right].
    invert_paths; simpl in Hcall; try discriminate;
      match goal with
      | E : summarize_with_ai w ?t = Ret ?s |- _ =>
          rewrite (gemini_key_missing_message t Hkey) in E; injection E as <-
      end;
      first [ done
            | match goal with
              | C : contains _ _ = false |- _ => vm_compute in C; discriminate C
              end ].
Qed.

End UploadProperties.


(** ** The further properties at sample requests *)

Module MoreChecks.
Import Samples.

#[local] Ltac evaluate :=
  vm_compute; first [ reflexivity | discriminate | intros E; discriminate E ].

Lemma answered_sample body :
  ocr_answered (ocr_world (answered body)) saved_report (lit "uploads/report.pdf") body.
Proof.
  exists [x25; x50; x44; x46], (lit "K1"),
    {| raise_for_status := Ret tt; json := Ret body |}.
  repeat split; try (vm_compute; reflexivity). discriminate.
Qed.

(** X1 at a scan, with an OCR.space key that is empty. *)
Lemma missing_ocr_key_is_reported_witness :
  key_missing (OCR_SPACE_API_KEY (empty_keys [])) = true
  /\ existsb is_ocr_call (calls (serve (empty_keys []) (upload (lit "report.pdf")) ∅).2) = true
  /\ (serve (empty_keys []) (upload (lit "report.pdf")) ∅).1
     = Ret (error_response OCR_KEY_MISSING)
  /\ existsb is_summarize_call (calls (serve (empty_keys []) (upload (lit "report.pdf")) ∅).2)
     = false.
Proof.
  split; [reflexivity|]. split; [vm_compute; reflexivity|].
  destruct (missing_ocr_key_is_reported (empty_keys []) (upload (lit "report.pdf")) ∅)
    as [Hanswer Hcalls].
  - reflexivity.
  - vm_compute. reflexivity.
  - split; [|exact Hcalls].
    destruct Hanswer as [Hanswer | (path & e & Hraise & _)]; [exact Hanswer|].
    vm_compute in Hraise. discriminate Hraise.
Defined.

(** X2 at a text PDF, with a Gemini key that is empty. *)
Lemma empty_gemini_key_counts_as_missing_witness :
  GEMINI_API_KEY (empty_keys long_page) = Some []
  /\ (serve (empty_keys long_page) (upload (lit "report.pdf")) ∅).1
     = Ret (error_response GEMINI_KEY_MISSING).
Proof.
  split; [reflexivity|].
  destruct (empty_gemini_key_counts_as_missing (empty_keys long_page)
              (upload (lit "report.pdf")) ∅) as [Hanswer | (path & e & Hraise & _)].
  - reflexivity.
  - vm_compute. reflexivity.
  - exact Hanswer.
  - vm_compute in Hraise. discriminate Hraise.
Defined.

(** X3 at an answer that reports an error next to a parsed text, and at one
    that reports an error without a message. *)
Lemma processing_error_wins_over_parsed_text_witness :
  ocr_with_ocrspace (ocr_world (answered (PDict errored_body))) saved_report
    (lit "uploads/report.pdf")
  = Ret (lit "OCR.space Error: " ++ lit "File too large")
  /\ ocr_with_ocrspace (ocr_world (answered (PDict errored_body_without_message)))
       saved_report (lit "uploads/report.pdf")
     = Ret (lit "OCR.space Error: Unknown error").
Proof.
  split.
  - apply (processing_error_wins_over_parsed_text (ocr_world (answered (PDict errored_body)))
             saved_report (lit "uploads/report.pdf") errored_body)
      with (rest := [PStr (lit "E301")]).
    + apply answered_sample.
    + vm_compute. reflexivity.
    + vm_compute. reflexivity.
  - apply (processing_error_wins_over_parsed_text
             (ocr_world (answered (PDict errored_body_without_message)))
             saved_report (lit "uploads/report.pdf") errored_body_without_message).
    + apply answered_sample.
    + vm_compute. reflexivity.
    + vm_compute. reflexivity.
Defined.

(** X4 at an answer whose body is a list. *)
Lemma malformed_answer_is_an_unexpected_error_witness :
  ocr_with_ocrspace (ocr_world (answered (PList []))) saved_report (lit "uploads/report.pdf")
  = Ret (lit "OCR.space Error: An unexpected error occurred. Details: "
         ++ exn_str (Exn AttributeError (lit "'list' object has no attribute 'get'"))).
Proof.
  apply (malformed_answer_is_an_unexpected_error (ocr_world (answered (PList [])))
           saved_report (lit "uploads/report.pdf") (PList [])).
  - apply answered_sample.
  - vm_compute. reflexivity.
Defined.

(** X5 at an answer with an empty list of results. *)
Lemma answer_without_results_is_an_error_witness :
  ocr_with_ocrspace (ocr_world (answered (PDict empty_results_body))) saved_report
    (lit "uploads/report.pdf")
  = Ret (lit "OCR.space Error: No text could be parsed.").
Proof.
  apply (answer_without_results_is_an_error (ocr_world (answered (PDict empty_results_body)))
           saved_report (lit "uploads/report.pdf") empty_results_body).
  - apply answered_sample.
  - vm_compute. reflexivity.
  - vm_compute. reflexivity.
Defined.

(** X6 at a page of 150 blanks. *)
Lemma short_or_blank_text_goes_to_ocr_witness :
  (length blank_page = 150)%nat
  /\ exists returned,
       In (OcrWithOcrspace (path_join UPLOAD_FOLDER (filename report)) (Ret returned))
         (calls (serve (world (Some (lit "K2")) blank_page (lit "Hb 13.5") (lit "Fine."))
                   (upload (lit "report.pdf")) ∅).2).
Proof.
  split; [reflexivity|].
  apply (short_or_blank_text_goes_to_ocr
           (world (Some (lit "K2")) blank_page (lit "Hb 13.5") (lit "Fine."))
           (upload (lit "report.pdf")) report ∅ blank_page).
  - repeat split; evaluate.
  - reflexivity.
  - vm_compute. reflexivity.
  - right. vm_compute. reflexivity.
Defined.

(** X7 at a text PDF. *)
Lemma text_pdf_is_summarized_unstripped_witness :
  exists summary,
    summarize_with_ai text_pdf long_page = Ret summary
    /\ calls (serve text_pdf (upload (lit "report.pdf")) other_upload).2
       = [ FileSave (path_join UPLOAD_FOLDER (filename report));
           FitzOpen (path_join UPLOAD_FOLDER (filename report));
           SummarizeWithAi long_page (Ret summary);
           OsRemove (path_join UPLOAD_FOLDER (filename report)) ]
    /\ (serve text_pdf (upload (lit "report.pdf")) other_upload).1
       = Ret (if contains GEMINI_MARKER summary then error_response summary
              else jsonify [(lit "extracted_text", PStr long_page);
                            (lit "summary", PStr summary)]).
Proof.
  destruct (text_pdf_is_summarized_unstripped text_pdf (upload (lit "report.pdf")) report
              other_upload long_page) as (summary & Hsum & Hcalls & Hanswer).
  - repeat split; evaluate.
  - reflexivity.
  - vm_compute. reflexivity.
  - vm_compute. lia.
  - exists summary. split; [exact Hsum|]. split; [exact Hcalls|].
    destruct Hanswer as [Hanswer | (path & e & Hraise & _)]; [exact Hanswer|].
    vm_compute in Hraise. discriminate Hraise.
Defined.

(** X8 at a scan that is read and summarized. *)
Lemma successful_answer_is_consistent_witness :
  strip (lit "Hb 13.5 g/dL") <> []
  /\ summarize_with_ai scanned_pdf (lit "Hb 13.5 g/dL") = Ret (lit "All values are normal.")
  /\ contains GEMINI_MARKER (lit "All values are normal.") = false
  /\ In (SummarizeWithAi (lit "Hb 13.5 g/dL") (Ret (lit "All values are normal.")))
       (calls (serve scanned_pdf (upload (lit "report.pdf")) ∅).2)
  /\ (forall path returned,
        In (OcrWithOcrspace path returned)
          (calls (serve scanned_pdf (upload (lit "report.pdf")) ∅).2) ->
        returned = Ret (lit "Hb 13.5 g/dL")
        /\ contains OCR_MARKER (lit "Hb 13.5 g/dL") = false)
  /\ exists file,
       reaches_pdf_branch (upload (lit "report.pdf")) file
       /\ path_exists (disk (serve scanned_pdf (upload (lit "report.pdf")) ∅).2)
            (path_join UPLOAD_FOLDER (filename file)) = false
       /\ disk (serve scanned_pdf (upload (lit "report.pdf")) ∅).2
          !! path_join UPLOAD_FOLDER (filename file) = None.
Proof.
  apply (successful_answer_is_consistent scanned_pdf (upload (lit "report.pdf")) ∅).
  vm_compute. reflexivity.
Defined.

(** X9 at a scan. *)
Lemma calls_follow_one_order_witness :
  exists ocr summarize,
    calls (serve scanned_pdf (upload (lit "report.pdf")) ∅).2
    = [ FileSave (path_join UPLOAD_FOLDER (filename report));
        FitzOpen (path_join UPLOAD_FOLDER (filename report)) ]
      ++ ocr ++ summarize ++ [OsRemove (path_join UPLOAD_FOLDER (filename report))]
    /\ ocr_calls (path_join UPLOAD_FOLDER (filename report)) ocr
    /\ summarize_calls summarize.
Proof.
  apply (calls_follow_one_order scanned_pdf (upload (lit "report.pdf")) report ∅).
  - repeat split; evaluate.
  - reflexivity.
Defined.

(** X10 on a full disk, with an older upload of the same name in the
    folder. *)
Lemma failed_save_is_reported_and_cleaned_up_witness :
  calls (serve disk_full (upload (lit "report.pdf")) saved_report).2
  = [ FileSave (lit "uploads/report.pdf"); OsRemove (lit "uploads/report.pdf") ]
  /\ (serve disk_full (upload (lit "report.pdf")) saved_report).1
     = Ret (error_response (lit "[Errno 28] No space left on device"))
  /\ path_exists (disk (serve disk_full (upload (lit "report.pdf")) saved_report).2)
       (lit "uploads/report.pdf") = false.
Proof.
  destruct (failed_save_is_reported_and_cleaned_up disk_full (upload (lit "report.pdf"))
              report saved_report (Exn OSError (lit "[Errno 28] No space left on device"))
              (Some [x25; x50])) as [Hcalls Hanswer].
  - repeat split; evaluate.
  - reflexivity.
  - split; [rewrite Hcalls; vm_compute; reflexivity|].
    destruct Hanswer as [[Hanswer Hgone] | (path & e & Hraise & _)].
    + split; [exact Hanswer | exact Hgone].
    + vm_compute in Hraise. discriminate Hraise.
Defined.

(** X11 at a file PyMuPDF cannot open. *)
Lemma failed_extraction_is_reported_and_cleaned_up_witness :
  calls (serve broken_pdf (upload (lit "report.pdf")) other_upload).2
  = [ FileSave (path_join UPLOAD_FOLDER (filename report));
      FitzOpen (path_join UPLOAD_FOLDER (filename report));
      OsRemove (path_join UPLOAD_FOLDER (filename report)) ]
  /\ (serve broken_pdf (upload (lit "report.pdf")) other_upload).1
     = Ret (error_response (exn_str (Exn OtherException (lit "Failed to open file"))))
  /\ path_exists (disk (serve broken_pdf (upload (lit "report.pdf")) other_upload).2)
       (path_join UPLOAD_FOLDER (filename report)) = false.
Proof.
  destruct (failed_extraction_is_reported_and_cleaned_up broken_pdf
              (upload (lit "report.pdf")) report other_upload
              (Exn OtherException (lit "Failed to open file"))) as [Hcalls Hanswer].
  - repeat split; evaluate.
  - reflexivity.
  - vm_compute. reflexivity.
  - split; [exact Hcalls|].
    destruct Hanswer as [[Hanswer Hgone] | (path & e & Hraise & _)].
    + split; [exact Hanswer | exact Hgone].
    + vm_compute in Hraise. discriminate Hraise.
Defined.


(** X13 at a form with a note before the file and a second file after
    it. *)
Lemma first_file_part_decides_witness :
  serve text_pdf
    {| files := [ (lit "note", {| filename := lit "note.txt"; stream := [] |});
                  (lit "file", report);
                  (lit "file", {| filename := lit "other.txt"; stream := [] |}) ] |} ∅
  = serve text_pdf {| files := [(lit "file", report)] |} ∅.
Proof.
  apply (first_file_part_decides text_pdf
           [ (lit "note", {| filename := lit "note.txt"; stream := [] |}) ]
           [ (lit "file", {| filename := lit "other.txt"; stream := [] |}) ] report ∅).
  intros k f [E|[]]. injection E as <- _. vm_compute. discriminate.
Defined.

(** X14 at a scan, with an older upload of the same name in the folder. *)
Lemma ocr_is_asked_about_the_upload_witness :
  lit "uploads/report.pdf" = path_join UPLOAD_FOLDER (filename report)
  /\ Ret (lit "Hb 13.5 g/dL")
     = ocr_with_ocrspace scanned_pdf
         {[ path_join UPLOAD_FOLDER (filename report) := stream report ]}
         (path_join UPLOAD_FOLDER (filename report)).
Proof.
  apply (ocr_is_asked_about_the_upload scanned_pdf (upload (lit "report.pdf")) report
           {[ lit "uploads/report.pdf" := [x00] ]}).
  - repeat split; evaluate.
  - vm_compute. auto 10.
Defined.

(** X15 at two scans, one without any text and one with a few words. *)
Lemma short_local_text_is_discarded_witness :
  serve (with_document scanned_pdf (one_page [])) (upload (lit "report.pdf")) ∅
  = serve (with_document scanned_pdf (one_page (lit "Page 1 of 1")))
      (upload (lit "report.pdf")) ∅.
Proof.
  apply (short_local_text_is_discarded scanned_pdf (one_page [])
           (one_page (lit "Page 1 of 1")) (upload (lit "report.pdf")) report ∅
           [] (lit "Page 1 of 1")).
  - repeat split; evaluate.
  - reflexivity.
  - vm_compute. reflexivity.
  - vm_compute. lia.
  - vm_compute. reflexivity.
  - vm_compute. lia.
Defined.

(** X16 at a PDF whose second and third pages cannot be read. *)
Lemma first_unreadable_page_is_reported_witness :
  (serve second_page_unreadable (upload (lit "report.pdf")) ∅).1
  = Ret (error_response (exn_str (Exn OtherException (lit "page 2 is damaged"))))
  /\ existsb is_ocr_call (calls (serve second_page_unreadable (upload (lit "report.pdf")) ∅).2)
     = false
  /\ existsb is_summarize_call
       (calls (serve second_page_unreadable (upload (lit "report.pdf")) ∅).2)
     = false.
Proof.
  destruct (first_unreadable_page_is_reported second_page_unreadable
              (upload (lit "report.pdf")) report ∅
              [ {| get_text := Ret long_page |} ]
              {| get_text := Raise (Exn OtherException (lit "page 2 is damaged")) |}
              [ {| get_text := Raise (Exn OtherException (lit "page 3 is damaged")) |} ]
              (Exn OtherException (lit "page 2 is damaged")))
    as (Hanswer & Hocr & Hsum).
  - repeat split; evaluate.
  - reflexivity.
  - reflexivity.
  - repeat constructor. by eexists.
  - reflexivity.
  - split; [|split; [exact Hocr | exact Hsum]].
    destruct Hanswer as [Hanswer | (path & e & Hraise & _)]; [exact Hanswer|].
    vm_compute in Hraise. discriminate Hraise.
Defined.

End MoreChecks.
